(** * classApi.js: data-access helpers of the classroom points tracker

    A shallow embedding of [src/classApi.js] and the properties its
    specification states about it.

    - JavaScript values are an inductive type [jsval]; numbers are IEEE 754
      binary64 values, taken from the Standard Library's [SpecFloat].
    - Objects are association lists in insertion order; [get] reads the first
      binding of a key and [set_prop] rewrites it in place.
    - The document database is a finite store of documents by reference; the
      asynchronous functions of the module are computations in a state and
      exception monad over the store and the log of the write calls they
      issue.  Every [await] is sequential, and a backend call that is reached
      succeeds: rejections surfaced by the service are not part of the model.
      What the SDK refuses before any call is: [createClass] turns a name
      chosen by the user into a document path, and [doc] throws on a name
      that is no path of a document.
    - What the JavaScript host supplies (number parsing and printing, the
      collator behind [localeCompare]) is a record [Host]; the theorems hold
      for every host. *)

From Stdlib Require Import ZArith List String Ascii Bool Lia.
From Stdlib Require Import Permutation Sorted DecimalString.
From Stdlib Require Import Floats.SpecFloat.
Import ListNotations.

Set Warnings "-register-all".

Local Open Scope string_scope.
Local Open Scope list_scope.

(** ** Numbers *)

Module Num.

(** A JavaScript Number: a binary64 floating-point value. *)
Definition number : Type := spec_float.

Definition prec : Z := 53.
Definition emax : Z := 1024.

Definition nan : number := S754_nan.
Definition zero : number := S754_zero false.
Definition neg_zero : number := S754_zero true.
Definition infinity : number := S754_infinity false.
Definition neg_infinity : number := S754_infinity true.

(** The number nearest to an integer (exact below 2^53). *)
Definition of_Z (z : Z) : number := binary_normalize prec emax z 0 false.

Definition one : number := of_Z 1.

(** [x + y] on numbers. *)
Definition add (x y : number) : number := SFadd prec emax x y.

(** [x <= y]; false when either side is NaN. *)
Definition leb (x y : number) : bool := SFleb x y.

(** [Math.trunc]: drops the fractional bits of a finite number, keeping its
    sign (so [-0.5] becomes [-0]); NaN, the zeros and the infinities are
    returned as they are. *)
Definition trunc (x : number) : number :=
  match x with
  | S754_finite s m (Zneg k) =>
      match Z.shiftr (Zpos m) (Zpos k) with
      | Zpos q => S754_finite s (Pos.iter xO q k) (Zneg k)
      | _ => S754_zero s
      end
  | _ => x
  end.

(** [Math.max(x, y)]: NaN when either is NaN; [+0] is larger than [-0]. *)
Definition max (x y : number) : number :=
  match SFcompare x y with
  | None => nan
  | Some Lt => y
  | Some Gt => x
  | Some Eq => match x with S754_zero true => y | _ => x end
  end.

(** ToBoolean on a number: [0], [-0] and NaN are falsy. *)
Definition truthy (x : number) : bool :=
  match x with
  | S754_zero _ | S754_nan => false
  | _ => true
  end.

(** [Number.isInteger]: finite and without fractional part. *)
Definition isInteger (x : number) : bool :=
  match x with
  | S754_zero _ => true
  | S754_finite _ m (Zneg k) =>
      Z.eqb (Z.land (Zpos m) (Z.ones (Zpos k))) 0
  | S754_finite _ _ _ => true
  | _ => false
  end.

(** The integer part of a finite number, rounded toward zero. *)
Definition integer_part (x : number) : option Z :=
  match x with
  | S754_zero _ => Some 0%Z
  | S754_finite s m e => Some (cond_Zopp s (Z.shiftl (Zpos m) e))
  | _ => None
  end.

Definition eq_dec (x y : number) : {x = y} + {x <> y}.
Proof.
  decide equality; try apply Bool.bool_dec;
    try apply Z.eq_dec; apply Pos.eq_dec.
Defined.

End Num.

Definition number : Type := Num.number.

(** ** Values *)

Inductive jsval : Type :=
| JUndefined
| JNull
| JBool (b : bool)
| JNumber (n : number)
| JString (s : string)
| JObject (props : list (string * jsval))
| JArray (elems : list jsval).

(** An object: its own properties in insertion order. *)
Definition jsobj : Type := list (string * jsval).

Fixpoint jsval_eq_dec (a b : jsval) {struct a} : {a = b} + {a <> b}.
Proof.
  decide equality.
  - apply Bool.bool_dec.
  - apply Num.eq_dec.
  - apply string_dec.
  - apply list_eq_dec. intros [k v] [k' v'].
    destruct (string_dec k k'); [subst|right; congruence].
    destruct (jsval_eq_dec v v'); [subst; now left|right; congruence].
  - apply list_eq_dec. exact jsval_eq_dec.
Defined.

Definition zero_v : jsval := JNumber Num.zero.

(** *** Property access *)

Fixpoint get (o : jsobj) (k : string) : jsval :=
  match o with
  | [] => JUndefined
  | (k', v) :: o' => if String.eqb k' k then v else get o' k
  end.

Fixpoint has (o : jsobj) (k : string) : bool :=
  match o with
  | [] => false
  | (k', _) :: o' => String.eqb k' k || has o' k
  end.

(** [o[k] = v]: an existing property keeps its position. *)
Fixpoint set_prop (k : string) (v : jsval) (o : jsobj) : jsobj :=
  match o with
  | [] => [(k, v)]
  | (k', v') :: o' =>
      if String.eqb k' k then (k, v) :: o' else (k', v') :: set_prop k v o'
  end.

(** [v.k] for a value [v] that is neither [undefined] nor [null].  The keys
    this module reads from a value of unknown shape are [daily] and [total],
    which no array, string, number or boolean has. *)
Definition member (v : jsval) (k : string) : jsval :=
  match v with
  | JObject o => get o k
  | _ => JUndefined
  end.

(** [v?.k] *)
Definition opt_member (v : jsval) (k : string) : jsval :=
  match v with
  | JUndefined | JNull => JUndefined
  | _ => member v k
  end.

(** *** Operators *)

(** ToBoolean *)
Definition truthy (v : jsval) : bool :=
  match v with
  | JUndefined | JNull => false
  | JBool b => b
  | JNumber n => Num.truthy n
  | JString s => negb (String.eqb s "")
  | JObject _ | JArray _ => true
  end.

(** [a || b] *)
Definition js_or (a b : jsval) : jsval := if truthy a then a else b.

(** [a ?? b] *)
Definition nullish (a b : jsval) : jsval :=
  match a with
  | JUndefined | JNull => b
  | _ => a
  end.

(** A destructuring default [{ k = d }]: used when the property is
    [undefined]. *)
Definition or_default (a d : jsval) : jsval :=
  match a with
  | JUndefined => d
  | _ => a
  end.

(** [typeof v === "number"] *)
Definition is_number (v : jsval) : bool :=
  match v with
  | JNumber _ => true
  | _ => false
  end.

(** ** The host *)

Record Host : Type := {
  (** StringToNumber: the value of a string as a numeric literal, NaN when
      it is none. *)
  StringToNumber : string -> number;
  (** Number::toString in radix 10. *)
  NumberToString : number -> string;
  (** [a.localeCompare(b, locales, options)] on two strings. *)
  localeCompare : string -> string -> jsval -> jsval -> Z
}.

Section Conversions.

Context (host : Host).

(** [Array.prototype.join] with separator [","], given the elements'
    strings. *)
Fixpoint join (l : list string) : string :=
  match l with
  | [] => ""
  | [s] => s
  | s :: l' => s ++ "," ++ join l'
  end.

(** ToString *)
Fixpoint ToString (v : jsval) : string :=
  match v with
  | JUndefined => "undefined"
  | JNull => "null"
  | JBool b => if b then "true" else "false"
  | JNumber n => NumberToString host n
  | JString s => s
  | JObject _ => "[object Object]"
  | JArray l =>
      join (map (fun e => match e with
                          | JUndefined | JNull => ""
                          | _ => ToString e
                          end) l)
  end.

(** ToPrimitive: objects and arrays convert through [toString]. *)
Definition ToPrimitive (v : jsval) : jsval :=
  match v with
  | JObject _ | JArray _ => JString (ToString v)
  | _ => v
  end.

(** [Number(v)] *)
Definition ToNumber (v : jsval) : number :=
  match v with
  | JUndefined => Num.nan
  | JNull => Num.zero
  | JBool b => if b then Num.one else Num.zero
  | JNumber n => n
  | JString s => StringToNumber host s
  | JObject _ | JArray _ => StringToNumber host (ToString v)
  end.

(** [a + b] *)
Definition js_add (a b : jsval) : jsval :=
  let pa := ToPrimitive a in
  let pb := ToPrimitive b in
  match pa, pb with
  | JString _, _ | _, JString _ => JString (ToString pa ++ ToString pb)
  | _, _ => JNumber (Num.add (ToNumber pa) (ToNumber pb))
  end.

(** [[
    export const toInt = (n) => Math.max(0, Math.trunc(Number(n) || 0));
    ]] *)
Definition toInt (n : jsval) : number :=
  let v := ToNumber n in
  let v := if Num.truthy v then v else Num.zero in
  Num.max Num.zero (Num.trunc v).

End Conversions.

(** ** Object literals and spread *)

(** The key of an array index. *)
Definition index_key (i : nat) : string :=
  NilEmpty.string_of_uint (Nat.to_uint i).

Fixpoint indexed (i : nat) (l : list jsval) : jsobj :=
  match l with
  | [] => []
  | x :: l' => (index_key i, x) :: indexed (S i) l'
  end.

Fixpoint chars (s : string) : list jsval :=
  match s with
  | EmptyString => []
  | String c s' => JString (String c EmptyString) :: chars s'
  end.

(** The bindings of an association list, each key once (its first). *)
Fixpoint distinct (seen : list string) (o : jsobj) : jsobj :=
  match o with
  | [] => []
  | (k, v) :: o' =>
      if existsb (String.eqb k) seen then distinct seen o'
      else (k, v) :: distinct (k :: seen) o'
  end.

(** The own enumerable properties a spread [...v] copies: those of an object,
    the elements of an array and the characters of a string by index, and
    none for the other values. *)
Definition own_props (v : jsval) : jsobj :=
  match v with
  | JObject o => distinct [] o
  | JArray l => indexed 0 l
  | JString s => indexed 0 (chars s)
  | _ => []
  end.

(** Sets the properties [src] on [target], in order. *)
Definition assign (target src : jsobj) : jsobj :=
  fold_left (fun o kv => set_prop (fst kv) (snd kv) o) src target.

(** [{ ...target, ...v }] *)
Definition spread (target : jsobj) (v : jsval) : jsobj :=
  assign target (own_props v).

Section Normalize.

Context (host : Host).

(** [[
    function normalizeStudent(s) {
      const base = { name: s.name ?? "", points: {} };
      const daily = s.daily ?? s.points?.daily;
      const total = s.points?.total ?? s.total ?? s.points;
      const points = {
        daily: toInt(daily || 0),
        total: toInt(total || 0)
      };
      return { ...base, id: s.id, points, ...s._extra };
    }
    ]] *)
Definition normalizeStudent (s : jsobj) : jsobj :=
  let base := [("name", nullish (get s "name") (JString ""));
               ("points", JObject [])] in
  let daily := nullish (get s "daily") (opt_member (get s "points") "daily") in
  let total :=
    nullish (nullish (opt_member (get s "points") "total") (get s "total"))
            (get s "points") in
  let points :=
    JObject [("daily", JNumber (toInt host (js_or daily zero_v)));
             ("total", JNumber (toInt host (js_or total zero_v)))] in
  spread
    (set_prop "points" points
       (set_prop "id" (get s "id") (spread [] (JObject base))))
    (get s "_extra").

End Normalize.

(** ** The document store *)

(** [doc(db, "classes", classId)] and
    [doc(db, "classes", classId, "students", studentId)], for ids that name
    one path segment each, as the ids the backend hands out do: the segments
    are the values the caller passes.  [DocAt] is a document anywhere else,
    by the segments of its path; only [doc], which splits a name chosen by
    the user, gives one. *)
Inductive docRef : Type :=
| ClassRef (classId : jsval)
| StudentRef (classId studentId : jsval)
| DocAt (path : list string).

Definition docRef_eq_dec (a b : docRef) : {a = b} + {a <> b}.
Proof.
  decide equality; try apply jsval_eq_dec.
  apply list_eq_dec, string_dec.
Defined.

Definition docRef_eqb (a b : docRef) : bool :=
  if docRef_eq_dec a b then true else false.

(** The documents that exist, each with its fields. *)
Definition Store : Type := list (docRef * jsobj).

Fixpoint store_get (st : Store) (r : docRef) : option jsobj :=
  match st with
  | [] => None
  | (r', data) :: st' => if docRef_eqb r' r then Some data else store_get st' r
  end.

(** A merge-write of one field: a non-empty map is merged field by field
    into the map already stored; any other value, the empty map included,
    replaces what is stored. *)
Fixpoint merge_value (new old : jsval) {struct new} : jsval :=
  match new with
  | JObject ((_ :: _) as fields) =>
      JObject
        (fold_left
           (fun acc kv =>
              set_prop (fst kv) (merge_value (snd kv) (get acc (fst kv))) acc)
           fields
           (match old with JObject o => o | _ => [] end))
  | _ => new
  end.

(** A merge-write of a document: the fields written are updated, all others
    are left as they are. *)
Definition merge_doc (new old : jsobj) : jsobj :=
  fold_left
    (fun acc kv =>
       set_prop (fst kv) (merge_value (snd kv) (get acc (fst kv))) acc)
    new old.

(** [set(ref, data, { merge: true })]: creates the document when absent. *)
Fixpoint store_set (r : docRef) (data : jsobj) (st : Store) : Store :=
  match st with
  | [] => [(r, merge_doc data [])]
  | (r', old) :: st' =>
      if docRef_eqb r' r then (r', merge_doc data old) :: st'
      else (r', old) :: store_set r data st'
  end.

Definition store_delete (r : docRef) (st : Store) : Store :=
  filter (fun e => negb (docRef_eqb (fst e) r)) st.

(** A document of a query snapshot: [(d.id, d.data())]. *)
Definition docSnap : Type := (jsval * jsobj)%type.

(** The documents of [collection(db, "classes")]. *)
Fixpoint classes_of (st : Store) : list docSnap :=
  match st with
  | [] => []
  | (ClassRef c, data) :: st' => (c, data) :: classes_of st'
  | _ :: st' => classes_of st'
  end.

(** The documents of [collection(db, "classes", classId, "students")]. *)
Fixpoint students_of (classId : jsval) (st : Store) : list docSnap :=
  match st with
  | [] => []
  | (StudentRef c s, data) :: st' =>
      if jsval_eq_dec c classId then (s, data) :: students_of classId st'
      else students_of classId st'
  | _ :: st' => students_of classId st'
  end.

(** *** Paths *)

(** [s.split("/")] *)
Fixpoint split (s : string) : list string :=
  match s with
  | EmptyString => [EmptyString]
  | String c s' =>
      if Ascii.eqb c "/"%char
      then EmptyString :: split s'
      else match split s' with
           | segment :: rest => String c segment :: rest
           | [] => [String c EmptyString]
           end
  end.

(** [s.indexOf("//") >= 0] *)
Fixpoint double_slash (s : string) : bool :=
  match s with
  | EmptyString => false
  | String c s' =>
      (Ascii.eqb c "/"%char && match s' with
                          | String c' _ => Ascii.eqb c' "/"%char
                          | EmptyString => false
                          end)
      || double_slash s'
  end.

(** [segment.length > 0] *)
Definition nonempty (segment : string) : bool :=
  match segment with
  | EmptyString => false
  | String _ _ => true
  end.

(** The document at a path: [classes/c] and [classes/c/students/s] are the
    class and the student documents. *)
Definition docAt (path : list string) : docRef :=
  match path with
  | [root; c] =>
      if root =? "classes" then ClassRef (JString c) else DocAt path
  | [root; c; sub; s] =>
      if (root =? "classes") && (sub =? "students")
      then StudentRef (JString c) (JString s)
      else DocAt path
  | _ => DocAt path
  end.

(** An operation queued on a write batch. *)
Inductive batchOp : Type :=
| BatchDelete (ref : docRef)
| BatchSet (ref : docRef) (data : jsobj).   (* with [{ merge: true }] *)

Definition apply_op (st : Store) (op : batchOp) : Store :=
  match op with
  | BatchDelete r => store_delete r st
  | BatchSet r data => store_set r data st
  end.

(** A write call issued to the backend. *)
Inductive call : Type :=
| Commit (ops : list batchOp)            (* [batch.commit()] *)
| SetDoc (ref : docRef) (data : jsobj)   (* [setDoc(ref, data, { merge: true })] *)
| DeleteDoc (ref : docRef).              (* [deleteDoc(ref)] *)

(** ** Asynchronous computations *)

Inductive exn : Type :=
| Error (message : string)
| TypeError (message : string)
| FirestoreError (code message : string).   (* thrown by the SDK *)

Inductive outcome (A : Type) : Type :=
| Returned (a : A)
| Thrown (e : exn).

Arguments Returned {A} a.
Arguments Thrown {A} e.

(** What running a computation from a store gives: how it ended, the store
    it left, and the write calls it issued, oldest first. *)
Record Run (A : Type) : Type := {
  result : outcome A;
  final : Store;
  calls : list call
}.

Arguments Build_Run {A}.
Arguments result {A}.
Arguments final {A}.
Arguments calls {A}.

Definition Async (A : Type) : Type := Store -> Run A.

Definition ret {A} (a : A) : Async A :=
  fun st => {| result := Returned a; final := st; calls := [] |}.

Definition throw {A} (e : exn) : Async A :=
  fun st => {| result := Thrown e; final := st; calls := [] |}.

Definition bind {A B} (m : Async A) (k : A -> Async B) : Async B :=
  fun st =>
    let r := m st in
    match result r with
    | Returned a =>
        let r' := k a (final r) in
        {| result := result r'; final := final r';
           calls := calls r ++ calls r' |}
    | Thrown e => {| result := Thrown e; final := final r; calls := calls r |}
    end.

Notation "x <- m ;; k" := (bind m (fun x => k))
  (at level 61, m at next level, right associativity).
Notation "m ;; k" := (bind m (fun _ => k))
  (at level 61, right associativity).

(** [array.forEach(f)] for a callback that updates a local state and may
    throw: a throw ends the iteration. *)
Fixpoint forEach {A S} (f : S -> A -> Async S) (l : list A) (s : S) : Async S :=
  match l with
  | [] => ret s
  | x :: l' => s' <- f s x ;; forEach f l' s'
  end.

(** *** Backend calls *)

Definition getDoc (r : docRef) : Async (option jsobj) :=
  fun st => {| result := Returned (store_get st r); final := st; calls := [] |}.

Definition getDocs_classes : Async (list docSnap) :=
  fun st => {| result := Returned (classes_of st); final := st; calls := [] |}.

Definition getDocs_students (classId : jsval) : Async (list docSnap) :=
  fun st =>
    {| result := Returned (students_of classId st); final := st; calls := [] |}.

Definition setDoc (r : docRef) (data : jsobj) : Async unit :=
  fun st =>
    {| result := Returned tt; final := store_set r data st;
       calls := [SetDoc r data] |}.

Definition deleteDoc (r : docRef) : Async unit :=
  fun st =>
    {| result := Returned tt; final := store_delete r st;
       calls := [DeleteDoc r] |}.

(** [batch.commit()]: the queued operations take effect together, in the
    order they were queued. *)
Definition commit (ops : list batchOp) : Async unit :=
  fun st =>
    {| result := Returned tt; final := fold_left apply_op ops st;
       calls := [Commit ops] |}.

(** ** The module *)

(** [Array.prototype.sort] with a comparator that may throw.  For a
    consistent comparator the language fixes the result, ascending and
    stable, and leaves the sequence of comparator calls to the engine.  This
    is an insertion sort from the left that hands the comparator the element
    it inserts, the later one in the array, first, as V8 does in its runs
    and binary insertions: the first element of the array is never the first
    argument. *)
Section Sort.

Context {A : Type} (cmp : A -> A -> outcome Z).

(** Puts [x] into the sorted run [l], before the first element it
    precedes. *)
Fixpoint insert (x : A) (l : list A) : outcome (list A) :=
  match l with
  | [] => Returned [x]
  | y :: l' =>
      match cmp x y with
      | Thrown e => Thrown e
      | Returned c =>
          if (c <? 0)%Z then Returned (x :: y :: l')
          else match insert x l' with
               | Returned r => Returned (y :: r)
               | Thrown e => Thrown e
               end
      end
  end.

(** Extends the sorted run by the elements of [l], in their order. *)
Fixpoint sortFrom (run l : list A) : outcome (list A) :=
  match l with
  | [] => Returned run
  | x :: l' =>
      match insert x run with
      | Returned run' => sortFrom run' l'
      | Thrown e => Thrown e
      end
  end.

Definition sort (l : list A) : outcome (list A) := sortFrom [] l.

End Sort.

Definition lift {A} (o : outcome A) : Async A :=
  match o with
  | Returned a => ret a
  | Thrown e => throw e
  end.

Section ClassApi.

Context (host : Host).

(** *** Class list and metadata *)

(** The options [listClasses] passes to [localeCompare]:
    [{ numeric: true, sensitivity: "base" }]. *)
Definition collatorOptions : jsval :=
  JObject [("numeric", JBool true); ("sensitivity", JString "base")].

(** [[
    d => {
      const data = d.data() || {};
      return { id: d.id, displayName: data.displayName || d.id,
               idPrefix: data.idPrefix || "" };
    }
    ]] *)
Definition classRow (d : docSnap) : jsobj :=
  let data := snd d in
  [("id", fst d);
   ("displayName", js_or (get data "displayName") (fst d));
   ("idPrefix", js_or (get data "idPrefix") (JString ""))].

(** [[
    (a,b) => a.displayName.localeCompare(b.displayName, undefined,
                                         { numeric:true, sensitivity:"base" })
    ]]
    Only a string has a [localeCompare] method; the argument is converted
    to a string. *)
Definition compareRows (a b : jsobj) : outcome Z :=
  match get a "displayName" with
  | JString sa =>
      Returned (localeCompare host sa (ToString host (get b "displayName"))
                              JUndefined collatorOptions)
  | _ => Thrown (TypeError "a.displayName.localeCompare is not a function")
  end.

(** [[
    export async function listClasses(db) {
      const snap = await getDocs(collection(db, "classes"));
      return snap.docs.map(d => ...).sort((a,b) => ...);
    }
    ]] *)
Definition listClasses : Async (list jsobj) :=
  snap <- getDocs_classes ;;
  lift (sort compareRows (map classRow snap)).

(** The handler [watchClass] subscribes to the roster snapshot: the rows
    it hands to [onStudents].
    [[
    const s = d.data() || {};
    return {
      id: d.id,
      name: s.name || "",
      points: (s.points && typeof s.points.total === "number") ? s.points.total : 0,
      daily:  (s.points && typeof s.points.daily === "number") ? s.points.daily  : 0,
      _raw: s
    };
    ]] *)
Definition studentRow (d : docSnap) : jsobj :=
  let s := snd d in
  let field k :=
    if truthy (get s "points") && is_number (member (get s "points") k)
    then member (get s "points") k else zero_v in
  [("id", fst d);
   ("name", js_or (get s "name") (JString ""));
   ("points", field "total");
   ("daily", field "daily");
   ("_raw", JObject s)].

Definition onStudentsSnapshot (docs : list docSnap) : list jsobj :=
  map studentRow docs.

(** The handler of the class document's snapshot: what [onMeta] gets. *)
Definition onMetaSnapshot (classId : jsval) (snap : option jsobj) : jsobj :=
  let data := match snap with Some d => d | None => [] end in
  [("id", classId);
   ("displayName", js_or (get data "displayName") classId);
   ("idPrefix", js_or (get data "idPrefix") (JString ""))].

(** *** Class CRUD *)

(** The SDK's [ResourcePath.fromString] on one component: a string with
    [//] is refused, any other is split at [/] and its empty segments are
    dropped.
    [[
    if (path.indexOf('//') >= 0) throw new FirestoreError(...);
    segments.push(...path.split('/').filter(segment => segment.length > 0));
    ]]
    A value that is not a string has no such methods, and the call is a
    TypeError, whose text is the engine's; an array has [indexOf], not
    [split]. *)
Definition fromString (path : jsval) : outcome (list string) :=
  match path with
  | JString s =>
      if double_slash s
      then Thrown (FirestoreError "invalid-argument"
                     ("Invalid segment (" ++ s
                      ++ "). Paths must not contain // in them."))
      else Returned (filter nonempty (split s))
  | JArray l =>
      if existsb (fun v => if jsval_eq_dec v (JString "//") then true
                           else false) l
      then Thrown (FirestoreError "invalid-argument"
                     ("Invalid segment (" ++ ToString host path
                      ++ "). Paths must not contain // in them."))
      else Thrown (TypeError "path.split is not a function")
  | JUndefined =>
      Thrown (TypeError
                "Cannot read properties of undefined (reading 'indexOf')")
  | JNull =>
      Thrown (TypeError "Cannot read properties of null (reading 'indexOf')")
  | _ => Thrown (TypeError "path.indexOf is not a function")
  end.

(** The SDK's [doc(db, "classes", name)]: the reference of the document at
    the path [classes/name], which must have an even number of segments. *)
Definition doc (name : jsval) : outcome docRef :=
  match fromString name with
  | Thrown e => Thrown e
  | Returned segments =>
      let path := "classes" :: segments in
      if Nat.even (List.length path) then Returned (docAt path)
      else Thrown (FirestoreError "invalid-argument"
                     ("Invalid document reference. Document references must "
                      ++ "have an even number of segments, but "
                      ++ String.concat "/" path ++ " has "
                      ++ NilZero.string_of_uint (Nat.to_uint (List.length path))
                      ++ "."))
  end.

(** [[
    export async function createClass(db, displayName, idPrefix) {
      if (!displayName || !idPrefix) throw new Error("displayName and idPrefix required");
      await setDoc(doc(db, "classes", displayName),
                   { displayName, idPrefix, createdAt: Date.now() },
                   { merge: true });
    }
    ]]
    [now] is what [Date.now()] returns. *)
Definition createClass (now : number) (displayName idPrefix : jsval)
  : Async unit :=
  if negb (truthy displayName) || negb (truthy idPrefix)
  then throw (Error "displayName and idPrefix required")
  else ref <- lift (doc displayName) ;;
       setDoc ref
              [("displayName", displayName); ("idPrefix", idPrefix);
               ("createdAt", JNumber now)].

(** The loop of [deleteClass]:
    [[
    for (const d of students.docs) {
      batch.delete(doc(db, "classes", classId, "students", d.id));
      if (++ops % 400 === 0) { await batch.commit(); batch = writeBatch(db); }
    }
    ]] *)
Fixpoint deleteLoop (classId : jsval) (docs : list docSnap)
         (batch : list batchOp) (ops : nat) : Async (list batchOp) :=
  match docs with
  | [] => ret batch
  | d :: docs' =>
      let batch := batch ++ [BatchDelete (StudentRef classId (fst d))] in
      let ops := S ops in
      if Nat.eqb (ops mod 400) 0
      then commit batch ;; deleteLoop classId docs' [] ops
      else deleteLoop classId docs' batch ops
  end.

(** [[
    export async function deleteClass(db, classId) {
      const students = await getDocs(collection(db, "classes", classId, "students"));
      let batch = writeBatch(db); let ops = 0;
      for (const d of students.docs) { ... }
      await batch.commit();
      await deleteDoc(doc(db, "classes", classId));
    }
    ]] *)
Definition deleteClass (classId : jsval) : Async unit :=
  students <- getDocs_students classId ;;
  batch <- deleteLoop classId students [] 0 ;;
  commit batch ;;
  deleteDoc (ClassRef classId).

(** *** Student helpers *)

(** [[
    const snap = await getDoc(doc(db, "classes", classId, "students", studentId));
    return snap.exists() ? { id: snap.id, ...snap.data() } : null;
    ]] *)
Definition getStudent (classId studentId : jsval) : Async (option jsobj) :=
  snap <- getDoc (StudentRef classId studentId) ;;
  ret (match snap with
       | Some data => Some (spread [("id", studentId)] (JObject data))
       | None => None
       end).

(** [[
    await setDoc(doc(db, "classes", classId, "students", studentId), fields, { merge: true });
    ]] *)
Definition setStudent (classId studentId : jsval) (fields : jsobj)
  : Async unit :=
  setDoc (StudentRef classId studentId) fields.

(** [function required(what) { throw new Error(`Missing: ${what}`); }] *)
Definition required {A} (what : string) : Async A :=
  throw (Error ("Missing: " ++ what)).

(** The callback of [adds.forEach] and [edits.forEach]:
    [[
    s => {
      const id = s.id || required("adds[].id");
      batch.set(doc(db, ...base, id), normalizeStudent(s), { merge: true });
    }
    ]] *)
Definition queueSet (classId : jsval) (what : string)
           (batch : list batchOp) (s : jsobj) : Async (list batchOp) :=
  id <- (if truthy (get s "id") then ret (get s "id") else required what) ;;
  ret (batch ++ [BatchSet (StudentRef classId id) (normalizeStudent host s)]).

(** [[
    export async function saveStudentsBatch(db, classId, { adds = [], edits = [], dels = [] }) {
      const base = ["classes", classId, "students"];
      const batch = writeBatch(db);
      dels.forEach(id => batch.delete(doc(db, ...base, id)));
      adds.forEach(s => { ... });
      edits.forEach(s => { ... });
      await batch.commit();
    }
    ]] *)
Definition saveStudentsBatch (classId : jsval)
           (adds edits : list jsobj) (dels : list jsval) : Async unit :=
  batch <- forEach
             (fun b id => ret (b ++ [BatchDelete (StudentRef classId id)]))
             dels [] ;;
  batch <- forEach (queueSet classId "adds[].id") adds batch ;;
  batch <- forEach (queueSet classId "edits[].id") edits batch ;;
  commit batch.

(** *** Common actions *)

Definition noPoints : jsval :=
  JObject [("daily", zero_v); ("total", zero_v)].

(** [[
    export async function incrementPoints(db, classId, studentId, { daily = 1, total = 1 } = {}) {
      const cur = await getStudent(db, classId, studentId) || {};
      const pts = cur.points || { daily: 0, total: 0 };
      await setStudent(db, classId, studentId,
        { points: { daily: toInt(pts.daily) + daily, total: toInt(pts.total) + total } });
    }
    ]]
    [delta] is the fourth argument, the empty object when it is left out. *)
Definition incrementPoints (classId studentId : jsval) (delta : jsobj)
  : Async unit :=
  let daily := or_default (get delta "daily") (JNumber Num.one) in
  let total := or_default (get delta "total") (JNumber Num.one) in
  cur <- getStudent classId studentId ;;
  let cur := match cur with Some c => c | None => [] end in
  let pts := js_or (get cur "points") noPoints in
  setStudent classId studentId
    [("points",
      JObject
        [("daily", js_add host (JNumber (toInt host (member pts "daily"))) daily);
         ("total", js_add host (JNumber (toInt host (member pts "total"))) total)])].

(** [[
    const cur = await getStudent(db, classId, studentId); if (!cur) return;
    await setStudent(db, classId, studentId,
      { points: { daily: 0, total: toInt(cur.points?.total) } });
    ]] *)
Definition resetDaily (classId studentId : jsval) : Async unit :=
  cur <- getStudent classId studentId ;;
  match cur with
  | None => ret tt
  | Some cur =>
      setStudent classId studentId
        [("points",
          JObject
            [("daily", zero_v);
             ("total",
              JNumber (toInt host (opt_member (get cur "points") "total")))])]
  end.

(** [[
    const cur = await getStudent(db, classId, studentId); if (!cur) return;
    await setStudent(db, classId, studentId,
      { points: { daily: toInt(cur.points?.daily), total: 0 } });
    ]] *)
Definition resetTotal (classId studentId : jsval) : Async unit :=
  cur <- getStudent classId studentId ;;
  match cur with
  | None => ret tt
  | Some cur =>
      setStudent classId studentId
        [("points",
          JObject
            [("daily",
              JNumber (toInt host (opt_member (get cur "points") "daily")));
             ("total", zero_v)])]
  end.

(** The callback of [snap.forEach] in [addDailyToAll]:
    [[
    d => {
      const s = d.data() || {};
      const pts = s.points || { daily: 0, total: 0 };
      batch.set(doc(db, "classes", classId, "students", d.id), {
        ...s,
        points: { daily: toInt(pts.daily) + 1, total: toInt(pts.total) + 1 }
      }, { merge: true });
    }
    ]] *)
Definition queueAddDaily (classId : jsval) (batch : list batchOp)
           (d : docSnap) : list batchOp :=
  let s := snd d in
  let pts := js_or (get s "points") noPoints in
  batch ++
  [BatchSet (StudentRef classId (fst d))
     (set_prop "points"
        (JObject
           [("daily", js_add host (JNumber (toInt host (member pts "daily")))
                                  (JNumber Num.one));
            ("total", js_add host (JNumber (toInt host (member pts "total")))
                                  (JNumber Num.one))])
        (spread [] (JObject s)))].

(** [[
    export async function addDailyToAll(db, classId) {
      const snap = await getDocs(collection(db, "classes", classId, "students"));
      const batch = writeBatch(db);
      snap.forEach(d => { ... });
      await batch.commit();
    }
    ]] *)
Definition addDailyToAll (classId : jsval) : Async unit :=
  snap <- getDocs_students classId ;;
  commit (fold_left (queueAddDaily classId) snap []).


End ClassApi.

(** ** A host to run examples on

    The theorems below hold for every host.  Closed examples need one: this
    one converts decimal integer literals and prints integers, and collates
    strings as sequences of case-folded characters and digit runs, a digit
    run counting by its numeric value. *)

Module SampleHost.

Definition is_digit (c : ascii) : bool :=
  (48 <=? N_of_ascii c)%N && (N_of_ascii c <=? 57)%N.

Definition digit (c : ascii) : N := (N_of_ascii c - 48)%N.

Fixpoint digits_value (s : string) (acc : N) : option N :=
  match s with
  | EmptyString => Some acc
  | String c s' =>
      if is_digit c then digits_value s' (10 * acc + digit c)%N else None
  end.

Definition stringToNumber (s : string) : number :=
  match s with
  | EmptyString => Num.zero
  | String "-" ((String _ _) as s') =>
      match digits_value s' 0 with
      | Some 0%N => Num.neg_zero
      | Some n => Num.of_Z (- Z.of_N n)
      | None => Num.nan
      end
  | _ =>
      match digits_value s 0 with
      | Some n => Num.of_Z (Z.of_N n)
      | None => Num.nan
      end
  end.

Definition numberToString (x : number) : string :=
  match x with
  | S754_nan => "NaN"
  | S754_infinity s => if s then "-Infinity" else "Infinity"
  | S754_zero _ => "0"
  | S754_finite s m e =>
      (if s then "-" else "") ++
      NilEmpty.string_of_uint (N.to_uint (Z.to_N (Z.shiftl (Zpos m) e)))
  end.

(** Case folding of a character: [A]..[Z] to [a]..[z]. *)
Definition fold_case (c : ascii) : N :=
  let n := N_of_ascii c in
  if (65 <=? n)%N && (n <=? 90)%N then (n + 32)%N else n.

Definition flush (run : option N) : list N :=
  match run with
  | Some n => [(256 + n)%N]
  | None => []
  end.

(** The collation key: one element per character outside digit runs, one
    per digit run. *)
Fixpoint collation_key (s : string) (run : option N) : list N :=
  match s with
  | EmptyString => flush run
  | String c s' =>
      if is_digit c
      then collation_key s'
             (Some (10 * match run with Some n => n | None => 0 end
                    + digit c)%N)
      else flush run ++ fold_case c :: collation_key s' None
  end.

Fixpoint lex (a b : list N) : comparison :=
  match a, b with
  | [], [] => Eq
  | [], _ :: _ => Lt
  | _ :: _, [] => Gt
  | x :: a', y :: b' =>
      match (x ?= y)%N with
      | Eq => lex a' b'
      | c => c
      end
  end.

Definition collate (a b : string) (locales options : jsval) : Z :=
  match lex (collation_key a None) (collation_key b None) with
  | Lt => (-1)%Z
  | Eq => 0%Z
  | Gt => 1%Z
  end.

Definition host : Host :=
  {| StringToNumber := stringToNumber;
     NumberToString := numberToString;
     localeCompare := collate |}.

End SampleHost.

(** ** The vocabulary of the specification *)

(** The field [points.k] of a student record: [undefined] when the record
    has no [points] map or the map has no such field. *)
Definition storedPoint (s : jsobj) (k : string) : jsval :=
  match get s "points" with
  | JObject p => get p k
  | _ => JUndefined
  end.

(** The field [points.k] of the student document in the store. *)
Definition studentPoint (st : Store) (classId studentId : jsval) (k : string)
  : jsval :=
  match store_get st (StudentRef classId studentId) with
  | Some data => storedPoint data k
  | None => JUndefined
  end.

(** [v >= 0] for a value that is a number. *)
Definition nonneg (v : jsval) : bool :=
  match v with
  | JNumber n => Num.leb Num.zero n
  | _ => false
  end.

(** [points.daily >= 0] and [points.total >= 0] in the data of a write. *)
Definition points_nonneg (data : jsobj) : bool :=
  nonneg (storedPoint data "daily") && nonneg (storedPoint data "total").

(** The documents a write call carries. *)
Definition written (c : call) : list jsobj :=
  match c with
  | SetDoc _ data => [data]
  | Commit ops =>
      flat_map (fun op => match op with
                          | BatchSet _ data => [data]
                          | BatchDelete _ => []
                          end) ops
  | DeleteDoc _ => []
  end.

(** An entry of [adds] or [edits] without a usable [id]: missing or falsy. *)
Definition lacks_id (s : jsobj) : bool := negb (truthy (get s "id")).

(** A class document as the data model has it: its id is a string, and so
    is its [displayName] when it has one. *)
Definition classDocTyped (d : docSnap) : bool :=
  match fst d, get (snd d) "displayName" with
  | JString _, (JString _ | JUndefined) => true
  | _, _ => false
  end.

(** The operation [saveStudentsBatch] queues for an entry that has an id. *)
Definition setOf (host : Host) (classId : jsval) (s : jsobj) : batchOp :=
  BatchSet (StudentRef classId (get s "id")) (normalizeStudent host s).

(** The batch [saveStudentsBatch] builds when every entry has an id: the
    deletions, then the adds, then the edits. *)
Definition batchOf (host : Host) (classId : jsval)
           (adds edits : list jsobj) (dels : list jsval) : list batchOp :=
  map (fun id => BatchDelete (StudentRef classId id)) dels
  ++ map (setOf host classId) adds ++ map (setOf host classId) edits.

(** A delta of [incrementPoints] that is left out, is [null] or a boolean
    (which count as 0 and 1), or is a number [>= 0]. *)
Definition delta_ok (v : jsval) : bool :=
  match v with
  | JUndefined | JNull | JBool _ => true
  | JNumber d => Num.leb Num.zero d
  | _ => false
  end.

(** Every document carried by the calls has non-negative points. *)
Definition all_points_nonneg (cs : list call) : Prop :=
  Forall (fun data => points_nonneg data = true) (flat_map written cs).

(** A value a merge-write stores as it is: anything but a non-empty map. *)
Definition is_leaf (v : jsval) : bool :=
  match v with
  | JObject (_ :: _) => false
  | _ => true
  end.

(** The fields [resetDaily], [resetTotal] and [incrementPoints] write. *)
Definition pointsFields (daily total : jsval) : jsobj :=
  [("points", JObject [("daily", daily); ("total", total)])].

(** The deltas [{ daily: d, total: t }]. *)
Definition deltas (d t : number) : jsobj :=
  [("daily", JNumber d); ("total", JNumber t)].

(** A student document with the given points. *)
Definition studentDoc (classId studentId : string) (daily total : number)
  : docRef * jsobj :=
  (StudentRef (JString classId) (JString studentId),
   [("name", JString studentId);
    ("points", JObject [("daily", JNumber daily); ("total", JNumber total)])]).

(** An entry whose [_extra] bag, if any, brings no [points] of its own. *)
Definition extra_keeps_points (s : jsobj) : bool :=
  negb (has (own_props (get s "_extra")) "points").

(** Whether every document carried by the calls has non-negative points. *)
Definition all_points_nonnegb (cs : list call) : bool :=
  forallb points_nonneg (flat_map written cs).

(** The comparison the specification names: the host's collation in the
    default locale, numeric-aware and insensitive to case,
    [a.localeCompare(b, undefined, { numeric: true, sensitivity: "base" })]. *)
Definition collation (host : Host) (a b : string) : Z :=
  localeCompare host a b JUndefined
    (JObject [("numeric", JBool true); ("sensitivity", JString "base")]).

(** A collation that is consistent, as a comparator given to [sort] has to
    be: comparing the other way round gives the opposite sign, and the order
    is transitive. *)
Definition consistent (host : Host) : Prop :=
  (forall a b, Z.sgn (collation host b a) = (- Z.sgn (collation host a b))%Z) /\
  (forall a b c, (collation host a b <= 0)%Z -> (collation host b c <= 0)%Z ->
                 (collation host a c <= 0)%Z).

Definition displayNameOf (row : jsobj) : string :=
  match get row "displayName" with
  | JString s => s
  | _ => ""
  end.

(** [a] is not after [b] in the order of display names. *)
Definition rowLe (host : Host) (a b : jsobj) : Prop :=
  (collation host (displayNameOf a) (displayNameOf b) <= 0)%Z.

Definition hasDisplayName (row : jsobj) : Prop :=
  exists s, get row "displayName" = JString s.

(** The name a class is listed under: the [displayName] its document
    stores, or the document's id when it stores none or an empty one. *)
Definition listedName (d : docSnap) : string :=
  match get (snd d) "displayName", fst d with
  | JString (String c s), _ => String c s
  | _, JString id => id
  | _, _ => ""
  end.

(** The prefix a class is listed with: the [idPrefix] its document stores,
    or the empty string when it stores none or a falsy one. *)
Definition listedPrefix (d : docSnap) : jsval :=
  if truthy (get (snd d) "idPrefix") then get (snd d) "idPrefix"
  else JString "".

(** [d] is not after [d'] in the order of the names they are listed
    under. *)
Definition docLe (host : Host) (d d' : docSnap) : Prop :=
  (collation host (listedName d) (listedName d') <= 0)%Z.

(** A name without [/]. *)
Fixpoint slashFree (s : string) : bool :=
  match s with
  | EmptyString => true
  | String c s' => negb (Ascii.eqb c "/"%char) && slashFree s'
  end.

(** The record written for an entry has non-negative points if the entry
    brings no [points] in its [_extra] bag. *)
Definition entry_nonneg (s data : jsobj) : Prop :=
  extra_keeps_points s = true -> points_nonneg data = true.

(** A class [classId] with [n] students, at [{0, 0}] each. *)
Definition roster (classId : string) (n : nat) : Store :=
  map (fun i => studentDoc classId (index_key i) Num.zero Num.zero) (seq 0 n).

(** The number of operations a commit carries. *)
Definition commit_size (c : call) : option nat :=
  match c with
  | Commit ops => Some (List.length ops)
  | _ => None
  end.

(** The field [k] of the student document in the store, [undefined] when
    the document or the field is absent. *)
Definition studentField (st : Store) (classId studentId : jsval) (k : string)
  : jsval :=
  match store_get st (StudentRef classId studentId) with
  | Some data => get data k
  | None => JUndefined
  end.


(** The keys of an object, in order. *)
Definition keys (o : jsobj) : list string := map fst o.

(** The number 7.5. *)
Definition seven_and_a_half : number :=
  S754_finite false 8444249301319680 (-50).


(** The field [k] of the document [r] in the store, [undefined] when the
    document or the field is absent. *)
Definition docField (st : Store) (r : docRef) (k : string) : jsval :=
  match store_get st r with
  | Some data => get data k
  | None => JUndefined
  end.

(** The fields [createClass] writes. *)
Definition classFields (now : number) (displayName idPrefix : jsval) : jsobj :=
  [("displayName", displayName); ("idPrefix", idPrefix);
   ("createdAt", JNumber now)].

(** * Properties *)

(** ** Numbers *)

Module NumFacts.

Import Num.

Lemma iter_xO_shiftl (q k : positive) :
  Zpos (Pos.iter xO q k) = Z.shiftl (Zpos q) (Zpos k).
Proof.
  unfold Z.shiftl.
  apply (Pos.iter_swap_gen _ _ Zpos xO (Z.mul 2)). reflexivity.
Qed.

Lemma shiftr_iter_xO (q k : positive) :
  Z.shiftr (Zpos (Pos.iter xO q k)) (Zpos k) = Zpos q.
Proof.
  rewrite iter_xO_shiftl, Z.shiftr_shiftl_l by lia.
  now rewrite Z.sub_diag.
Qed.

Lemma land_iter_xO (q k : positive) :
  Z.land (Zpos (Pos.iter xO q k)) (Z.ones (Zpos k)) = 0%Z.
Proof.
  rewrite iter_xO_shiftl, Z.land_ones, Z.shiftl_mul_pow2 by lia.
  apply Z.mod_mul. lia.
Qed.

(** [Math.trunc] gives a value it leaves alone. *)
Lemma trunc_idempotent (x : number) : trunc (trunc x) = trunc x.
Proof.
  destruct x as [s|s| |s m [|e|k]]; try reflexivity.
  cbv beta iota delta [trunc].
  destruct (Z.shiftr (Zpos m) (Zpos k)) as [|q|q] eqn:E; try reflexivity.
  now rewrite shiftr_iter_xO.
Qed.

Lemma trunc_integer (x : number) :
  isInteger (trunc x) = match x with
                        | S754_nan | S754_infinity _ => false
                        | _ => true
                        end.
Proof.
  destruct x as [s|s| |s m [|e|k]]; try reflexivity.
  unfold trunc.
  destruct (Z.shiftr (Zpos m) (Zpos k)) as [|q|q]; try reflexivity.
  unfold isInteger. now rewrite land_iter_xO.
Qed.

(** [Math.trunc] keeps the integer part. *)
Lemma trunc_integer_part (x : number) :
  integer_part (trunc x) = integer_part x.
Proof.
  destruct x as [s|s| |s m [|e|k]]; try reflexivity.
  cbv beta iota delta [trunc integer_part].
  change (Z.shiftl (Zpos m) (Zneg k)) with (Z.shiftr (Zpos m) (Zpos k)).
  destruct (Z.shiftr (Zpos m) (Zpos k)) as [|q|q] eqn:E.
  - now destruct s.
  - change (Z.shiftl (Zpos (Pos.iter xO q k)) (Zneg k))
      with (Z.shiftr (Zpos (Pos.iter xO q k)) (Zpos k)).
    now rewrite shiftr_iter_xO.
  - pose proof (Z.shiftr_nonneg (Zpos m) (Zpos k)) as H.
    rewrite E in H. exfalso. assert (0 <= Zneg q)%Z by (apply H; lia). lia.
Qed.

Lemma leb_zero_cases (x : number) :
  leb zero x = match x with
               | S754_zero _ => true
               | S754_finite s _ _ | S754_infinity s => negb s
               | S754_nan => false
               end.
Proof. destruct x as [s|[]| |[] m e]; reflexivity. Qed.

(** Rounding keeps the sign of what it rounds. *)
Section Rounding.

Local Open Scope Z_scope.

Lemma shr_1_nonneg mrs : 0 <= shr_m mrs -> 0 <= shr_m (shr_1 mrs).
Proof.
  destruct mrs as [[|[p|p|]|p] r s]; simpl; lia.
Qed.

Lemma iter_pos_invariant {A} (f : A -> A) (P : A -> Prop) :
  (forall a, P a -> P (f a)) ->
  forall n a, P a -> P (iter_pos f n a).
Proof.
  intros Hf. induction n as [n IH|n IH|]; simpl; intros a Ha; auto.
Qed.

Lemma shr_nonneg mrs e n :
  0 <= shr_m mrs -> 0 <= shr_m (fst (shr mrs e n)).
Proof.
  intros H. destruct n; simpl; trivial.
  apply (iter_pos_invariant shr_1 (fun m => 0 <= shr_m m)); trivial.
  apply shr_1_nonneg.
Qed.

Lemma shr_fexp_nonneg m e l :
  0 <= m -> 0 <= shr_m (fst (shr_fexp prec emax m e l)).
Proof.
  intros H. unfold shr_fexp. apply shr_nonneg.
  destruct l as [|[]]; simpl; trivial.
Qed.

Lemma round_nearest_even_nonneg m l :
  0 <= m -> 0 <= round_nearest_even m l.
Proof.
  intros H. destruct l as [|[]]; simpl; trivial; try lia.
  destruct (Z.even m); lia.
Qed.

Lemma binary_round_aux_nonneg m e l :
  0 <= m -> leb zero (binary_round_aux prec emax false m e l) = true.
Proof.
  intros H. unfold binary_round_aux.
  pose proof (shr_fexp_nonneg m e l H) as H1.
  destruct (shr_fexp prec emax m e l) as [mrs' e'] eqn:E1. simpl in H1.
  pose proof (round_nearest_even_nonneg (shr_m mrs')
                (loc_of_shr_record mrs') H1) as H2.
  pose proof (shr_fexp_nonneg _ e' loc_Exact H2) as H3.
  destruct (shr_fexp prec emax _ e' loc_Exact) as [mrs'' e''] eqn:E2.
  simpl in H3.
  destruct (shr_m mrs'') as [|p|p]; try reflexivity; try lia.
  destruct (e'' <=? emax - prec); reflexivity.
Qed.

Lemma binary_round_nonneg m e :
  leb zero (binary_round prec emax false m e) = true.
Proof.
  unfold binary_round.
  destruct (shl_align m e _) as [mz ez].
  apply binary_round_aux_nonneg. lia.
Qed.

End Rounding.

(** The sum of two numbers that are [>= 0] is [>= 0]. *)
Lemma add_nonneg (x y : number) :
  leb zero x = true -> leb zero y = true -> leb zero (add x y) = true.
Proof.
  intros Hx Hy. rewrite leb_zero_cases in Hx, Hy.
  destruct x as [sx|[]| |[] mx ex]; try discriminate;
    destruct y as [sy|[]| |[] my ey]; try discriminate;
    try reflexivity.
  - destruct sx, sy; reflexivity.
  - unfold add, SFadd, cond_Zopp.
    rewrite <- Pos2Z.inj_add. unfold binary_normalize.
    apply binary_round_nonneg.
Qed.

End NumFacts.

(** ** [toInt] *)

Section ToIntFacts.

Context (host : Host).

Import Num NumFacts.

Lemma trunc_finite_cases s m e :
  trunc (S754_finite s m e) = S754_zero s \/
  exists m', trunc (S754_finite s m e) = S754_finite s m' e.
Proof.
  destruct e as [|e|k]; simpl; eauto.
  destruct (Z.shiftr (Zpos m) (Zpos k)); eauto.
Qed.

(** What [toInt] can return: [0], [Infinity], or a positive finite number
    without fractional part. *)
Lemma toInt_shape (x : jsval) :
  toInt host x = zero \/
  (toInt host x = infinity /\ ToNumber host x = infinity) \/
  exists m e, toInt host x = S754_finite false m e /\
              trunc (S754_finite false m e) = S754_finite false m e.
Proof.
  unfold toInt.
  destruct (ToNumber host x) as [s|[]| |s m e] eqn:E; simpl truthy; cbv iota;
    try (left; reflexivity).
  - right; left. split; reflexivity.
  - pose proof (trunc_idempotent (S754_finite s m e)) as Hi.
    destruct (trunc_finite_cases s m e) as [H|[m' H]]; rewrite H in Hi |- *.
    + left; reflexivity.
    + destruct s; [left; reflexivity|].
      right; right. exists m', e. split; [reflexivity|exact Hi].
Qed.

(** [toInt] never returns a negative number or NaN. *)
Lemma toInt_nonneg (x : jsval) : leb zero (toInt host x) = true.
Proof.
  destruct (toInt_shape x) as [H|[[H _]|(m & e & H & _)]];
    rewrite H; reflexivity.
Qed.

Lemma toInt_fixed (r : number) :
  r = zero \/ r = infinity \/
  (exists m e, r = S754_finite false m e /\ trunc r = r) ->
  toInt host (JNumber r) = r.
Proof.
  intros [->|[->|(m & e & -> & H)]]; try reflexivity.
  unfold toInt. cbn [ToNumber Num.truthy]. now rewrite H.
Qed.

(** [toInt(toInt(x)) == toInt(x)] for every input. *)
Lemma toInt_idempotent (x : jsval) :
  toInt host (JNumber (toInt host x)) = toInt host x.
Proof.
  apply toInt_fixed.
  destruct (toInt_shape x) as [H|[[H _]|(m & e & H & Ht)]]; rewrite H; eauto.
  right; right. exists m, e. auto.
Qed.

(** An input that does not convert to a number gives [0]. *)
Lemma toInt_not_numeric (x : jsval) :
  ToNumber host x = nan -> toInt host x = zero.
Proof. unfold toInt. now intros ->. Qed.

(** Unless the input converts to [Infinity], the result is an integer. *)
Lemma toInt_integer (x : jsval) :
  ToNumber host x <> infinity -> isInteger (toInt host x) = true.
Proof.
  intros Hx.
  destruct (toInt_shape x) as [H|[[_ H]|(m & e & H & Ht)]];
    [now rewrite H|contradiction|].
  rewrite H, <- Ht.
  now rewrite trunc_integer.
Qed.

(** On an input that converts to a finite number, [toInt] is
    [max(0, truncate(number))]. *)
Lemma toInt_value (x : jsval) (z : Z) :
  integer_part (ToNumber host x) = Some z ->
  integer_part (toInt host x) = Some (Z.max 0 z).
Proof.
  unfold toInt.
  destruct (ToNumber host x) as [s|s| |s m e] eqn:E; try discriminate.
  - intros [= <-]. reflexivity.
  - intros Hz. cbn [Num.truthy].
    rewrite <- trunc_integer_part in Hz.
    assert (Hpos : forall m' e', (0 < Z.shiftl (Zpos m') e' \/
                                  Z.shiftl (Zpos m') e' = 0)%Z).
    { intros m' e'.
      pose proof (proj2 (Z.shiftl_nonneg (Zpos m') e')) as H.
      assert (0 <= Z.shiftl (Zpos m') e')%Z by (apply H; lia). lia. }
    destruct (trunc_finite_cases s m e) as [H|[m' H]]; rewrite H in Hz |- *.
    + injection Hz as <-. reflexivity.
    + cbn [integer_part] in Hz. injection Hz as <-.
      pose proof (Hpos m' e) as Hv.
      destruct s.
      * change (Num.max zero (S754_finite true m' e)) with zero.
        change (integer_part zero) with (Some 0%Z). cbn [cond_Zopp].
        remember (Z.shiftl (Zpos m') e) as v. f_equal. lia.
      * change (Num.max zero (S754_finite false m' e))
          with (S754_finite false m' e).
        cbn [integer_part cond_Zopp].
        remember (Z.shiftl (Zpos m') e) as v. f_equal. lia.
Qed.

(** Inputs that are not numbers but convert to one are converted:
    [toInt(true)] is [1] and [toInt(null)] is [0]. *)
Remark toInt_converts :
  toInt host (JBool true) = one /\ toInt host JNull = zero.
Proof. split; reflexivity. Qed.

(** [toInt(n) + d] for a number [d >= 0]. *)
Lemma toInt_plus_nonneg (x : jsval) (d : number) :
  leb zero d = true ->
  js_add host (JNumber (toInt host x)) (JNumber d)
  = JNumber (add (toInt host x) d) /\
  leb zero (add (toInt host x) d) = true.
Proof.
  intros Hd. split; [reflexivity|].
  apply add_nonneg; [apply toInt_nonneg|exact Hd].
Qed.

End ToIntFacts.

(** ** Objects *)

Lemma get_set_same (k : string) (v : jsval) (o : jsobj) :
  get (set_prop k v o) k = v.
Proof.
  induction o as [|[k' v'] o IH]; simpl.
  - now rewrite String.eqb_refl.
  - destruct (String.eqb k' k) eqn:E; simpl.
    + now rewrite String.eqb_refl.
    + now rewrite E.
Qed.

Lemma get_set_other (k k' : string) (v : jsval) (o : jsobj) :
  k <> k' -> get (set_prop k v o) k' = get o k'.
Proof.
  intros Hk. induction o as [|[k0 v0] o IH]; simpl.
  - apply String.eqb_neq in Hk. now rewrite Hk.
  - destruct (String.eqb k0 k) eqn:E; simpl.
    + apply String.eqb_eq in E. subst k0.
      apply String.eqb_neq in Hk. now rewrite Hk.
    + destruct (String.eqb k0 k'); auto.
Qed.

Lemma get_absent (o : jsobj) (k : string) :
  has o k = false -> get o k = JUndefined.
Proof.
  induction o as [|[k' v'] o IH]; simpl; trivial.
  destruct (String.eqb k' k); simpl; [discriminate|exact IH].
Qed.


Lemma get_assign_absent (src target : jsobj) (k : string) :
  has src k = false -> get (assign target src) k = get target k.
Proof.
  unfold assign. revert target.
  induction src as [|[k' v'] src IH]; simpl; intros target H; trivial.
  apply Bool.orb_false_iff in H. destruct H as [Hk Hs].
  rewrite IH by exact Hs.
  apply get_set_other. now apply String.eqb_neq.
Qed.

Lemma get_assign_distinct (o : jsobj) (seen : list string) (target : jsobj)
      (k : string) :
  get (assign target (distinct seen o)) k
  = if existsb (String.eqb k) seen then get target k
    else if has o k then get o k else get target k.
Proof.
  unfold assign. revert seen target.
  induction o as [|[k' v'] o IH]; intros seen target; simpl.
  - now destruct (existsb _ seen).
  - destruct (existsb (String.eqb k') seen) eqn:Es.
    + rewrite IH. destruct (existsb (String.eqb k) seen) eqn:Ek; trivial.
      destruct (String.eqb k' k) eqn:E; trivial.
      apply String.eqb_eq in E. subst k'. congruence.
    + simpl. rewrite IH. simpl.
      destruct (String.eqb k' k) eqn:E.
      * apply String.eqb_eq in E. subst k'.
        rewrite String.eqb_refl, Es. simpl. apply get_set_same.
      * rewrite String.eqb_sym, E. simpl.
        apply String.eqb_neq in E.
        rewrite (get_set_other k' k v' target E).
        reflexivity.
Qed.

(** [{ ...target, ...o }.k] is [o.k] when [o] has the property. *)
Lemma get_spread_object (target o : jsobj) (k : string) :
  get (spread target (JObject o)) k
  = if has o k then get o k else get target k.
Proof. unfold spread, own_props. now rewrite get_assign_distinct. Qed.

(** ** The store *)

Lemma docRef_eqb_eq (a b : docRef) : docRef_eqb a b = true <-> a = b.
Proof. unfold docRef_eqb. destruct (docRef_eq_dec a b); split; congruence. Qed.

Lemma docRef_eqb_refl (a : docRef) : docRef_eqb a a = true.
Proof. now apply docRef_eqb_eq. Qed.

Lemma store_get_set_same (st : Store) (r : docRef) (new old : jsobj) :
  store_get st r = Some old ->
  store_get (store_set r new st) r = Some (merge_doc new old).
Proof.
  induction st as [|[r' d] st IH]; simpl; [discriminate|].
  destruct (docRef_eqb r' r) eqn:E; simpl; rewrite E.
  - congruence.
  - exact IH.
Qed.


Lemma In_students_of (classId s : jsval) (data : jsobj) (st : Store) :
  In (s, data) (students_of classId st) <->
  In (StudentRef classId s, data) st.
Proof.
  induction st as [|[[c|c s'|p] d] st IH]; simpl.
  - tauto.
  - rewrite IH. split; [tauto|]. intros [H|H]; [discriminate|trivial].
  - destruct (jsval_eq_dec c classId) as [->|Hc]; simpl; rewrite IH.
    + split; (intros [H|H]; [left; congruence|tauto]).
    + split; [tauto|]. intros [H|H]; [congruence|trivial].
  - rewrite IH. split; [tauto|]. intros [H|H]; [discriminate|trivial].
Qed.




(** ** Running computations *)

Lemma bind_ret {A B} (a : A) (k : A -> Async B) (st : Store) :
  bind (ret a) k st = k a st.
Proof. unfold bind, ret. simpl. now destruct (k a st). Qed.

Lemma bind_throw {A B} (e : exn) (k : A -> Async B) (st : Store) :
  bind (throw e) k st = throw e st.
Proof. reflexivity. Qed.

Lemma forEach_deletes (classId : jsval) (dels : list jsval)
      (b : list batchOp) (st : Store) :
  forEach (fun b id => ret (b ++ [BatchDelete (StudentRef classId id)])) dels b st
  = ret (b ++ map (fun id => BatchDelete (StudentRef classId id)) dels) st.
Proof.
  revert b. induction dels as [|id dels IH]; intros b; cbn [forEach map].
  - now rewrite app_nil_r.
  - rewrite bind_ret, IH, <- app_assoc. reflexivity.
Qed.

Lemma bind_returns {A B} (m : Async A) (a : A) (k : A -> Async B)
      (st : Store) :
  m st = ret a st -> bind m k st = k a st.
Proof. intros H. unfold bind. rewrite H. simpl. now destruct (k a st). Qed.

Lemma bind_throws {A B} (m : Async A) (e : exn) (k : A -> Async B)
      (st : Store) :
  m st = throw e st -> bind m k st = throw e st.
Proof. intros H. unfold bind. now rewrite H. Qed.

Lemma queueSet_run (host : Host) (classId : jsval) (what : string)
      (b : list batchOp) (s : jsobj) (st : Store) :
  queueSet host classId what b s st
  = if lacks_id s then throw (Error ("Missing: " ++ what)) st
    else ret (b ++ [setOf host classId s]) st.
Proof.
  unfold queueSet, lacks_id, required.
  destruct (truthy (get s "id")); reflexivity.
Qed.

Lemma forEach_queueSet_ok (host : Host) (classId : jsval) (what : string)
      (l : list jsobj) (b : list batchOp) (st : Store) :
  existsb lacks_id l = false ->
  forEach (queueSet host classId what) l b st
  = ret (b ++ map (setOf host classId) l) st.
Proof.
  revert b. induction l as [|s l IH]; intros b H; cbn [forEach map].
  - now rewrite app_nil_r.
  - simpl in H. apply Bool.orb_false_iff in H. destruct H as [Hs Hl].
    rewrite (bind_returns _ (b ++ [setOf host classId s])).
    + rewrite IH, <- app_assoc by exact Hl. reflexivity.
    + now rewrite queueSet_run, Hs.
Qed.

Lemma forEach_queueSet_missing (host : Host) (classId : jsval) (what : string)
      (l : list jsobj) (b : list batchOp) (st : Store) :
  existsb lacks_id l = true ->
  forEach (queueSet host classId what) l b st
  = throw (Error ("Missing: " ++ what)) st.
Proof.
  revert b. induction l as [|s l IH]; intros b H; [discriminate|].
  cbn [forEach]. simpl in H.
  destruct (lacks_id s) eqn:Hs.
  - apply bind_throws. now rewrite queueSet_run, Hs.
  - rewrite (bind_returns _ (b ++ [setOf host classId s])).
    + now apply IH.
    + now rewrite queueSet_run, Hs.
Qed.

(** With an id on every entry, [saveStudentsBatch] commits one batch. *)
Lemma saveStudentsBatch_commits (host : Host) (classId : jsval)
      (adds edits : list jsobj) (dels : list jsval) (st : Store) :
  existsb lacks_id (adds ++ edits) = false ->
  saveStudentsBatch host classId adds edits dels st
  = commit (batchOf host classId adds edits dels) st.
Proof.
  intros H. rewrite existsb_app in H.
  apply Bool.orb_false_iff in H. destruct H as [Ha He].
  unfold saveStudentsBatch.
  rewrite (bind_returns _ _ _ _ (forEach_deletes classId dels [] st)).
  rewrite (bind_returns _ _ _ _ (forEach_queueSet_ok host _ _ adds _ st Ha)).
  rewrite (bind_returns _ _ _ _ (forEach_queueSet_ok host _ _ edits _ st He)).
  unfold batchOf. rewrite <- app_assoc. reflexivity.
Qed.

(** ** The claims *)

(** C2 (the code departs from it).  [toInt] is to return a non-negative
    integer for every input.  At the input [Infinity] it returns [Infinity],
    which is not an integer: [Number(Infinity) || 0] is [Infinity], and both
    [Math.trunc] and [Math.max(0, _)] return it unchanged. *)
Theorem toInt_infinity (host : Host) :
  toInt host (JNumber Num.infinity) = Num.infinity /\
  Num.isInteger (toInt host (JNumber Num.infinity)) = false /\
  toInt host (JNumber (toInt host (JNumber Num.infinity)))
  = toInt host (JNumber Num.infinity).
Proof. repeat split. Qed.

(** *** Names as document paths *)

Lemma split_slashFree (s : string) : slashFree s = true -> split s = [s].
Proof.
  induction s as [|c s IH]; cbn [slashFree split]; [reflexivity|].
  destruct (Ascii.eqb c "/"); cbn [negb andb]; [discriminate|].
  intros H. now rewrite (IH H).
Qed.

Lemma double_slash_slashFree (s : string) :
  slashFree s = true -> double_slash s = false.
Proof.
  induction s as [|c s IH]; cbn [slashFree double_slash]; [reflexivity|].
  destruct (Ascii.eqb c "/"); cbn [negb andb orb]; [discriminate|exact IH].
Qed.

Lemma split_segment (a b : string) :
  slashFree a = true -> split (a ++ "/" ++ b) = a :: split b.
Proof.
  induction a as [|c a IH]; cbn [slashFree]; [reflexivity|].
  change (String c a ++ "/" ++ b)%string with (String c (a ++ "/" ++ b))%string.
  cbn [split].
  destruct (Ascii.eqb c "/"); cbn [negb andb]; [discriminate|].
  intros H. now rewrite (IH H).
Qed.

Lemma double_slash_segment (a b : string) :
  slashFree a = true -> slashFree b = true ->
  double_slash (a ++ "/" ++ b) = false.
Proof.
  intros Ha Hb. induction a as [|c a IH].
  - cbn. rewrite (double_slash_slashFree b Hb).
    destruct b as [|c b]; [reflexivity|].
    cbn [slashFree] in Hb. now destruct (Ascii.eqb c "/").
  - cbn [slashFree] in Ha.
    change (String c a ++ "/" ++ b)%string with (String c (a ++ "/" ++ b))%string.
    cbn [double_slash].
    destruct (Ascii.eqb c "/"); [discriminate|].
    cbn [negb andb orb] in *. exact (IH Ha).
Qed.

Lemma nonempty_true (s : string) : s <> "" -> nonempty s = true.
Proof. destruct s; [congruence|reflexivity]. Qed.

(** A name without [/] is the id of the class document. *)
Lemma doc_name (host : Host) (s : string) :
  slashFree s = true -> s <> "" ->
  doc host (JString s) = Returned (ClassRef (JString s)).
Proof.
  intros Hs Hn. unfold doc, fromString.
  rewrite (double_slash_slashFree s Hs), (split_slashFree s Hs).
  cbn [filter]. now rewrite (nonempty_true s Hn).
Qed.

(** A name of two segments is the path of a collection, not of a
    document. *)
Lemma doc_two_segments (host : Host) (a b : string) :
  slashFree a = true -> slashFree b = true -> a <> "" -> b <> "" ->
  doc host (JString (a ++ "/" ++ b))
  = Thrown (FirestoreError "invalid-argument"
              ("Invalid document reference. Document references must "
               ++ "have an even number of segments, but "
               ++ String.concat "/" ["classes"; a; b] ++ " has 3.")).
Proof.
  intros Ha Hb Na Nb. unfold doc, fromString.
  rewrite (double_slash_segment a b Ha Hb), (split_segment a b Ha),
    (split_slashFree b Hb).
  cbn [filter]. now rewrite (nonempty_true a Na), (nonempty_true b Nb).
Qed.

Lemma createClass_run (host : Host) (now : number)
      (displayName idPrefix : jsval) (st : Store) :
  truthy displayName = true -> truthy idPrefix = true ->
  createClass host now displayName idPrefix st
  = match doc host displayName with
    | Returned ref =>
        setDoc ref [("displayName", displayName); ("idPrefix", idPrefix);
                    ("createdAt", JNumber now)] st
    | Thrown e => throw e st
    end.
Proof.
  intros Hd Hp. unfold createClass. rewrite Hd, Hp. cbn [negb orb].
  now destruct (doc host displayName).
Qed.

(** C8 (as the code has it).  [createClass] throws its validation error,
    before any write, if and only if [displayName] or [idPrefix] is falsy.
    Otherwise [doc] makes a reference out of the name: when [doc] throws,
    so does [createClass], also before any write; when it returns, the one
    call is a merge-write to that document.  For a name that is a string
    without [/] the document is the class document whose id is the name; a
    name of two segments, as [Math/Science], is one [doc] throws on. *)
Theorem createClass_validates (host : Host) (now : number)
        (displayName idPrefix : jsval) (st : Store) :
  let r := createClass host now displayName idPrefix st in
  let fields := [("displayName", displayName); ("idPrefix", idPrefix);
                 ("createdAt", JNumber now)] in
  (result r = Thrown (Error "displayName and idPrefix required") <->
   (truthy displayName = false \/ truthy idPrefix = false)) /\
  ((truthy displayName = false \/ truthy idPrefix = false) ->
   calls r = [] /\ final r = st) /\
  ((truthy displayName = true /\ truthy idPrefix = true) ->
   match doc host displayName with
   | Returned ref =>
       result r = Returned tt /\ calls r = [SetDoc ref fields] /\
       final r = store_set ref fields st
   | Thrown e => result r = Thrown e /\ calls r = [] /\ final r = st
   end) /\
  (forall name,
      displayName = JString name -> slashFree name = true ->
      truthy displayName = true -> truthy idPrefix = true ->
      result r = Returned tt /\
      calls r = [SetDoc (ClassRef displayName) fields] /\
      final r = store_set (ClassRef displayName) fields st) /\
  (forall a b,
      displayName = JString (a ++ "/" ++ b) ->
      slashFree a = true -> slashFree b = true -> a <> "" -> b <> "" ->
      truthy idPrefix = true ->
      (exists message,
          result r = Thrown (FirestoreError "invalid-argument" message)) /\
      calls r = [] /\ final r = st).
Proof.
  cbv zeta. split; [|split; [|split; [|split]]].
  - destruct (truthy displayName) eqn:Hd, (truthy idPrefix) eqn:Hp;
      try (unfold createClass; rewrite Hd, Hp; cbn; split; auto; fail).
    rewrite (createClass_run host now displayName idPrefix st Hd Hp).
    split; [|intros [H|H]; discriminate].
    unfold doc.
    destruct (fromString host displayName) as [segments|e] eqn:E.
    + destruct (Nat.even _); cbn; discriminate.
    + unfold fromString in E.
      destruct displayName as [| |?|?|s|?|l]; try (injection E as <-);
        try (cbn; discriminate).
      * destruct (double_slash s); [injection E as <-|]; cbn; discriminate.
      * destruct (existsb _ l); injection E as <-; cbn; discriminate.
  - unfold createClass.
    intros [H|H]; rewrite H; rewrite ?Bool.orb_true_r; now split.
  - intros [Hd Hp].
    rewrite (createClass_run host now displayName idPrefix st Hd Hp).
    destruct (doc host displayName); repeat split.
  - intros name -> Hs Hd Hp.
    rewrite (createClass_run host now (JString name) idPrefix st Hd Hp).
    rewrite doc_name; [repeat split|exact Hs|].
    intros ->. discriminate.
  - intros a b -> Ha Hb Na Nb Hp.
    assert (Hd : truthy (JString (a ++ "/" ++ b)) = true)
      by (destruct a; [congruence|reflexivity]).
    rewrite (createClass_run host now _ idPrefix st Hd Hp).
    rewrite (doc_two_segments host a b Ha Hb Na Nb).
    split; [eexists; reflexivity|now split].
Qed.

(** The class [Math/Science] with the prefix [MS]: both arguments are
    truthy, and [createClass] throws, without a write. *)
Lemma createClass_two_segments :
  let r := createClass SampleHost.host (Num.of_Z 1700000000000)
                       (JString "Math/Science") (JString "MS") [] in
  truthy (JString "Math/Science") = true /\
  truthy (JString "MS") = true /\
  result r
  = Thrown (FirestoreError "invalid-argument"
              ("Invalid document reference. Document references must have "
               ++ "an even number of segments, but classes/Math/Science "
               ++ "has 3.")) /\
  calls r = [] /\ final r = [].
Proof. repeat split. Qed.

(** C9.  Each row handed to [onStudents] carries the stored [points.total]
    as [points] and the stored [points.daily] as [daily], each replaced by
    [0] when the stored value is absent or not of type number, and the
    record itself as [_raw]. *)
Theorem onStudents_rows (docs : list docSnap) :
  Forall2
    (fun d row =>
       get row "id" = fst d /\
       get row "points" = (if is_number (storedPoint (snd d) "total")
                           then storedPoint (snd d) "total" else zero_v) /\
       get row "daily" = (if is_number (storedPoint (snd d) "daily")
                          then storedPoint (snd d) "daily" else zero_v) /\
       get row "_raw" = JObject (snd d))
    docs (onStudentsSnapshot docs).
Proof.
  unfold onStudentsSnapshot.
  induction docs as [|[id s] docs IH]; simpl; constructor; trivial.
  unfold studentRow, storedPoint. simpl.
  repeat split;
    destruct (get s "points") as [| |b|n|str|p|l]; simpl;
    rewrite ?Bool.andb_false_r; trivial.
Qed.

Lemma saveStudentsBatch_throws (host : Host) (classId : jsval)
      (adds edits : list jsobj) (dels : list jsval) (st : Store) :
  existsb lacks_id (adds ++ edits) = true ->
  saveStudentsBatch host classId adds edits dels st
  = throw (Error (if existsb lacks_id adds
                  then "Missing: adds[].id"
                  else "Missing: edits[].id")) st.
Proof.
  intros H. rewrite existsb_app in H.
  unfold saveStudentsBatch.
  rewrite (bind_returns _ _ _ _ (forEach_deletes classId dels [] st)).
  destruct (existsb lacks_id adds) eqn:Ha.
  - now rewrite (bind_throws _ _ _ _
                   (forEach_queueSet_missing host _ _ adds _ st Ha)).
  - simpl in H.
    rewrite (bind_returns _ _ _ _ (forEach_queueSet_ok host _ _ adds _ st Ha)).
    now rewrite (bind_throws _ _ _ _
                   (forEach_queueSet_missing host _ _ edits _ st H)).
Qed.





(** *** [deleteClass] *)




(** A class of 801 students is deleted in commits of 400, 400 and 1
    deletions; for 800 students the last commit is empty. *)
Remark deleteClass_801 :
  map commit_size (calls (deleteClass (JString "C") (roster "C" 801)))
  = [Some 400; Some 400; Some 1; None] /\
  map commit_size (calls (deleteClass (JString "C") (roster "C" 800)))
  = [Some 400; Some 400; Some 0; None] /\
  final (deleteClass (JString "C") (roster "C" 801)) = [].
Proof. repeat split; vm_compute; reflexivity. Qed.

(** *** Reading and writing a student's points *)

Lemma getStudent_run (classId studentId : jsval) (st : Store) :
  getStudent classId studentId st
  = ret (match store_get st (StudentRef classId studentId) with
         | Some data => Some (spread [("id", studentId)] (JObject data))
         | None => None
         end) st.
Proof.
  unfold getStudent.
  now rewrite (bind_returns _ (store_get st (StudentRef classId studentId))).
Qed.

(** [{ id: snap.id, ...data }] reads as [data] at every key but [id]. *)
Lemma get_student_field (studentId : jsval) (data : jsobj) (k : string) :
  k <> "id" -> get (spread [("id", studentId)] (JObject data)) k = get data k.
Proof.
  intros Hk. rewrite get_spread_object.
  destruct (has data k) eqn:E; trivial.
  rewrite (get_absent _ _ E). cbn [get].
  destruct (String.eqb "id" k) eqn:E'; trivial.
  apply String.eqb_eq in E'. congruence.
Qed.

Lemma opt_member_points (data : jsobj) (k : string) :
  opt_member (get data "points") k = storedPoint data k.
Proof. unfold storedPoint. now destruct (get data "points"). Qed.

Lemma merge_value_leaf (new old : jsval) :
  is_leaf new = true -> merge_value new old = new.
Proof. destruct new as [| | | | |[|kv fs]|]; simpl; trivial; discriminate. Qed.

Lemma js_add_leaf (host : Host) (n : number) (v : jsval) :
  is_leaf (js_add host (JNumber n) v) = true.
Proof. unfold js_add. simpl. now destruct (ToPrimitive host v). Qed.

(** What a merge-write of [{ points: { daily, total } }] leaves in an
    existing student document. *)
Lemma studentPoint_written (st : Store) (classId studentId : jsval)
      (data : jsobj) (daily total : jsval) :
  store_get st (StudentRef classId studentId) = Some data ->
  is_leaf daily = true -> is_leaf total = true ->
  let st' := store_set (StudentRef classId studentId)
                       (pointsFields daily total) st in
  studentPoint st' classId studentId "daily" = daily /\
  studentPoint st' classId studentId "total" = total.
Proof.
  intros Hget Hd Ht st'. unfold studentPoint, st'.
  rewrite (store_get_set_same _ _ _ _ Hget).
  unfold pointsFields, merge_doc, storedPoint. cbn [fold_left fst snd].
  rewrite get_set_same.
  cbn [merge_value fold_left fst snd].
  rewrite (merge_value_leaf daily), (merge_value_leaf total) by assumption.
  split.
  - rewrite get_set_other by discriminate. apply get_set_same.
  - apply get_set_same.
Qed.

Lemma resetDaily_run (host : Host) (classId studentId : jsval) (st : Store) :
  resetDaily host classId studentId st
  = match store_get st (StudentRef classId studentId) with
    | Some data =>
        setDoc (StudentRef classId studentId)
               (pointsFields zero_v
                  (JNumber (toInt host (storedPoint data "total")))) st
    | None => ret tt st
    end.
Proof.
  unfold resetDaily.
  rewrite (bind_returns _ _ _ _ (getStudent_run classId studentId st)).
  destruct (store_get st (StudentRef classId studentId)) as [data|]; trivial.
  unfold setStudent, pointsFields.
  now rewrite get_student_field, opt_member_points by discriminate.
Qed.

Lemma resetTotal_run (host : Host) (classId studentId : jsval) (st : Store) :
  resetTotal host classId studentId st
  = match store_get st (StudentRef classId studentId) with
    | Some data =>
        setDoc (StudentRef classId studentId)
               (pointsFields
                  (JNumber (toInt host (storedPoint data "daily"))) zero_v) st
    | None => ret tt st
    end.
Proof.
  unfold resetTotal.
  rewrite (bind_returns _ _ _ _ (getStudent_run classId studentId st)).
  destruct (store_get st (StudentRef classId studentId)) as [data|]; trivial.
  unfold setStudent, pointsFields.
  now rewrite get_student_field, opt_member_points by discriminate.
Qed.

(** The points [incrementPoints] starts from: the stored [points] when
    truthy, [{ daily: 0, total: 0 }] otherwise. *)
Lemma incrementPoints_run (host : Host) (classId studentId : jsval)
      (delta : jsobj) (st : Store) :
  let pts :=
    js_or (match store_get st (StudentRef classId studentId) with
           | Some data => get data "points"
           | None => JUndefined
           end) noPoints in
  incrementPoints host classId studentId delta st
  = setDoc (StudentRef classId studentId)
      (pointsFields
         (js_add host (JNumber (toInt host (member pts "daily")))
                 (or_default (get delta "daily") (JNumber Num.one)))
         (js_add host (JNumber (toInt host (member pts "total")))
                 (or_default (get delta "total") (JNumber Num.one)))) st.
Proof.
  intros pts. unfold incrementPoints.
  rewrite (bind_returns _ _ _ _ (getStudent_run classId studentId st)).
  unfold setStudent, pointsFields, pts.
  destruct (store_get st (StudentRef classId studentId)) as [data|]; trivial.
  now rewrite get_student_field by discriminate.
Qed.

Lemma bind_step {A B} (m : Async A) (k : A -> Async B) (st : Store) (a : A) :
  result (m st) = Returned a ->
  result (bind m k st) = result (k a (final (m st))) /\
  final (bind m k st) = final (k a (final (m st))).
Proof. intros H. unfold bind. rewrite H. split; reflexivity. Qed.

Lemma studentPoint_number (st : Store) (classId studentId : jsval)
      (k : string) (n : number) :
  studentPoint st classId studentId k = JNumber n ->
  exists data p,
    store_get st (StudentRef classId studentId) = Some data /\
    get data "points" = JObject p /\ get p k = JNumber n.
Proof.
  unfold studentPoint, storedPoint.
  destruct (store_get st (StudentRef classId studentId)) as [data|];
    [|discriminate].
  destruct (get data "points") as [| | | | |p|] eqn:Hp; try discriminate.
  intros H. exists data, p. auto.
Qed.

(** On a student whose points are numbers, [incrementPoints] with numeric
    deltas stores the sums. *)
Lemma incrementPoints_adds (host : Host) (classId studentId : jsval)
      (st : Store) (d t dd dt : number) :
  studentPoint st classId studentId "daily" = JNumber d ->
  studentPoint st classId studentId "total" = JNumber t ->
  let r := incrementPoints host classId studentId (deltas dd dt) st in
  result r = Returned tt /\
  studentPoint (final r) classId studentId "daily"
  = JNumber (Num.add (toInt host (JNumber d)) dd) /\
  studentPoint (final r) classId studentId "total"
  = JNumber (Num.add (toInt host (JNumber t)) dt).
Proof.
  intros Hd Ht.
  destruct (studentPoint_number _ _ _ _ _ Hd) as (data & p & Hget & Hp & Hpd).
  destruct (studentPoint_number _ _ _ _ _ Ht) as (data' & p' & Hget' & Hp' & Hpt).
  assert (data' = data) by congruence. subst data'.
  assert (p' = p) by congruence. subst p'.
  cbv zeta. rewrite incrementPoints_run, Hget, Hp.
  cbn [js_or truthy member deltas get String.eqb Ascii.eqb Bool.eqb or_default].
  rewrite Hpd, Hpt.
  split; [reflexivity|].
  apply (studentPoint_written st classId studentId data _ _ Hget);
    reflexivity.
Qed.

(** C6.  On a student whose stored points are [{daily: 0, total: 0}], two
    calls of [incrementPoints(db, classId, studentId, {daily: 2, total: 2})],
    one after the other, leave the stored points at [{daily: 4, total: 4}]. *)
Theorem incrementPoints_twice (host : Host) (classId studentId : jsval)
        (st : Store) :
  studentPoint st classId studentId "daily" = zero_v ->
  studentPoint st classId studentId "total" = zero_v ->
  let two := deltas (Num.of_Z 2) (Num.of_Z 2) in
  let r := (incrementPoints host classId studentId two ;;
            incrementPoints host classId studentId two) st in
  result r = Returned tt /\
  studentPoint (final r) classId studentId "daily" = JNumber (Num.of_Z 4) /\
  studentPoint (final r) classId studentId "total" = JNumber (Num.of_Z 4).
Proof.
  intros Hd Ht. cbv zeta.
  destruct (incrementPoints_adds host classId studentId st _ _
              (Num.of_Z 2) (Num.of_Z 2) Hd Ht) as (R1 & D1 & T1).
  destruct (incrementPoints_adds host classId studentId _ _ _
              (Num.of_Z 2) (Num.of_Z 2) D1 T1) as (R2 & D2 & T2).
  destruct (bind_step _ (fun _ => incrementPoints host classId studentId
                                    (deltas (Num.of_Z 2) (Num.of_Z 2)))
                      st tt R1) as [Hres Hfin].
  rewrite Hres, Hfin. repeat split; assumption.
Qed.

(** Student [s1] of class [C] at [{0, 0}], incremented twice by [{2, 2}]. *)
Lemma incrementPoints_twice_witness :
  let st := [studentDoc "C" "s1" Num.zero Num.zero] in
  let two := deltas (Num.of_Z 2) (Num.of_Z 2) in
  let r := (incrementPoints SampleHost.host (JString "C") (JString "s1") two ;;
            incrementPoints SampleHost.host (JString "C") (JString "s1") two)
             st in
  result r = Returned tt /\
  studentPoint (final r) (JString "C") (JString "s1") "daily"
  = JNumber (Num.of_Z 4) /\
  studentPoint (final r) (JString "C") (JString "s1") "total"
  = JNumber (Num.of_Z 4).
Proof.
  exact (incrementPoints_twice SampleHost.host (JString "C") (JString "s1")
           [studentDoc "C" "s1" Num.zero Num.zero] eq_refl eq_refl).
Defined.



(** *** Non-negative points *)

Lemma written_batchOf (host : Host) (classId : jsval)
      (adds edits : list jsobj) (dels : list jsval) :
  flat_map written [Commit (batchOf host classId adds edits dels)]
  = map (normalizeStudent host) (adds ++ edits).
Proof.
  cbn [flat_map written]. rewrite app_nil_r. unfold batchOf.
  rewrite flat_map_app, <- map_app.
  replace (flat_map _ (map (fun id => BatchDelete (StudentRef classId id)) dels))
    with (@nil jsobj) by (induction dels; simpl; trivial).
  cbn [app].
  induction (adds ++ edits) as [|s l IH]; simpl; [trivial|now rewrite IH].
Qed.

Lemma points_nonneg_fields (daily total : jsval) :
  points_nonneg (pointsFields daily total) = nonneg daily && nonneg total.
Proof. reflexivity. Qed.

Lemma normalizeStudent_points (host : Host) (s : jsobj) :
  extra_keeps_points s = true ->
  exists daily total,
    get (normalizeStudent host s) "points"
    = JObject [("daily", JNumber (toInt host daily));
               ("total", JNumber (toInt host total))].
Proof.
  intros H. apply Bool.negb_true_iff in H.
  unfold normalizeStudent, spread at 1.
  rewrite get_assign_absent by exact H.
  rewrite get_set_same. eauto.
Qed.

Lemma normalizeStudent_nonneg (host : Host) (s : jsobj) :
  extra_keeps_points s = true ->
  points_nonneg (normalizeStudent host s) = true.
Proof.
  intros H. destruct (normalizeStudent_points host s H) as (d & t & E).
  unfold points_nonneg, storedPoint. rewrite E.
  cbn [get String.eqb Ascii.eqb Bool.eqb nonneg].
  now rewrite !toInt_nonneg.
Qed.

Lemma delta_nonneg (host : Host) (x v : jsval) :
  delta_ok v = true ->
  nonneg (js_add host (JNumber (toInt host x))
                 (or_default v (JNumber Num.one))) = true.
Proof.
  destruct v as [| |b|d| | |]; try discriminate; intros H;
    cbn [or_default]; unfold js_add; cbn [ToPrimitive ToNumber nonneg];
    apply NumFacts.add_nonneg; try apply toInt_nonneg; trivial.
  now destruct b.
Qed.

Lemma Forall2_map_entries (host : Host) (l : list jsobj) :
  Forall2 entry_nonneg l (map (normalizeStudent host) l).
Proof.
  induction l as [|s l IH]; cbn [map]; constructor; [|exact IH].
  intros H. now apply normalizeStudent_nonneg.
Qed.

Lemma fold_queueAddDaily (host : Host) (classId : jsval)
      (snap : list docSnap) (b : list batchOp) :
  flat_map written [Commit (fold_left (queueAddDaily host classId) snap b)]
  = flat_map written [Commit b]
    ++ map (fun d =>
              set_prop "points"
                (JObject
                   [("daily",
                     js_add host
                       (JNumber (toInt host
                          (member (js_or (get (snd d) "points") noPoints)
                                  "daily")))
                       (JNumber Num.one));
                    ("total",
                     js_add host
                       (JNumber (toInt host
                          (member (js_or (get (snd d) "points") noPoints)
                                  "total")))
                       (JNumber Num.one))])
                (spread [] (JObject (snd d)))) snap.
Proof.
  revert b. induction snap as [|d snap IH]; intros b.
  - simpl. now rewrite !app_nil_r.
  - cbn [fold_left map]. rewrite IH. unfold queueAddDaily.
    cbn [flat_map written]. rewrite !app_nil_r, flat_map_app.
    cbn [flat_map]. rewrite <- app_assoc. reflexivity.
Qed.

(** C1 (as the code has it).  Of the records [saveStudentsBatch] writes,
    one for each add and edit in their order (and none at all when an entry
    lacks its id), each one whose entry brings no [points] in its [_extra]
    bag has [points.daily >= 0] and [points.total >= 0], whatever the other
    entries of the call are; so have the write of [incrementPoints] when
    each delta is left out, [null], a boolean or a number [>= 0], and the
    writes of [resetDaily], [resetTotal] and [addDailyToAll]. *)
Theorem written_points_nonneg (host : Host) (classId studentId : jsval)
        (adds edits : list jsobj) (dels : list jsval) (delta : jsobj)
        (st : Store) :
  delta_ok (get delta "daily") = true ->
  delta_ok (get delta "total") = true ->
  (if existsb lacks_id (adds ++ edits)
   then calls (saveStudentsBatch host classId adds edits dels st) = []
   else Forall2 entry_nonneg (adds ++ edits)
          (flat_map written
             (calls (saveStudentsBatch host classId adds edits dels st)))) /\
  all_points_nonneg (calls (incrementPoints host classId studentId delta st)) /\
  all_points_nonneg (calls (resetDaily host classId studentId st)) /\
  all_points_nonneg (calls (resetTotal host classId studentId st)) /\
  all_points_nonneg (calls (addDailyToAll host classId st)).
Proof.
  intros Hd Ht. unfold all_points_nonneg.
  split; [|split; [|split; [|split]]].
  - destruct (existsb lacks_id (adds ++ edits)) eqn:E.
    + now rewrite saveStudentsBatch_throws by exact E.
    + rewrite saveStudentsBatch_commits by exact E.
      cbn [commit calls]. rewrite written_batchOf.
      apply Forall2_map_entries.
  - rewrite incrementPoints_run. cbn [setDoc calls flat_map written app].
    constructor; [|constructor].
    rewrite points_nonneg_fields.
    now rewrite (delta_nonneg host _ _ Hd), (delta_nonneg host _ _ Ht).
  - rewrite resetDaily_run.
    destruct (store_get st (StudentRef classId studentId)); [|constructor].
    cbn [setDoc calls flat_map written app].
    constructor; [|constructor].
    rewrite points_nonneg_fields. cbn [nonneg zero_v].
    now rewrite toInt_nonneg.
  - rewrite resetTotal_run.
    destruct (store_get st (StudentRef classId studentId)); [|constructor].
    cbn [setDoc calls flat_map written app].
    constructor; [|constructor].
    rewrite points_nonneg_fields. cbn [nonneg zero_v].
    now rewrite toInt_nonneg.
  - unfold addDailyToAll.
    rewrite (bind_returns _ (students_of classId st)) by reflexivity.
    cbn [commit calls]. rewrite fold_queueAddDaily.
    cbn [flat_map written app]. apply Forall_map, Forall_forall.
    intros d _. unfold points_nonneg, storedPoint.
    rewrite get_set_same. cbn [get String.eqb Ascii.eqb Bool.eqb].
    destruct (toInt_plus_nonneg host
                (member (js_or (get (snd d) "points") noPoints) "daily")
                Num.one eq_refl) as [E1 L1].
    destruct (toInt_plus_nonneg host
                (member (js_or (get (snd d) "points") noPoints) "total")
                Num.one eq_refl) as [E2 L2].
    rewrite E1, E2. cbn [nonneg]. now rewrite L1, L2.
Qed.

(** A call that adds [a] and edits [b], where the edit brings negative
    points in its [_extra] bag, an increment by [{2, true}] and the two
    resets on a student at [{3, 5}]: the record written for [a] has
    non-negative points, the one for [b] has not, and so have the records
    of the other writes. *)
Lemma written_points_nonneg_witness :
  let st := [studentDoc "C" "s1" (Num.of_Z 3) (Num.of_Z 5)] in
  let bad := JObject [("daily", JNumber (Num.of_Z (-1))); ("total", zero_v)] in
  let adds := [[("id", JString "a"); ("name", JString "A");
                ("_extra", JObject [("pet", JString "cat")])]] in
  let edits := [[("id", JString "b");
                 ("_extra", JObject [("points", bad)])]] in
  let delta := [("daily", JNumber (Num.of_Z 2)); ("total", JBool true)] in
  let c := JString "C" in
  let s := JString "s1" in
  ((if existsb lacks_id (adds ++ edits)
    then calls (saveStudentsBatch SampleHost.host c adds edits [JString "b"] st)
         = []
    else Forall2 entry_nonneg (adds ++ edits)
           (flat_map written
              (calls (saveStudentsBatch SampleHost.host c adds edits
                        [JString "b"] st)))) /\
   all_points_nonneg (calls (incrementPoints SampleHost.host c s delta st)) /\
   all_points_nonneg (calls (resetDaily SampleHost.host c s st)) /\
   all_points_nonneg (calls (resetTotal SampleHost.host c s st)) /\
   all_points_nonneg (calls (addDailyToAll SampleHost.host c st))) /\
  map points_nonneg
      (flat_map written
         (calls (saveStudentsBatch SampleHost.host c adds edits
                   [JString "b"] st)))
  = [true; false].
Proof.
  split; [|reflexivity].
  exact (written_points_nonneg SampleHost.host (JString "C") (JString "s1")
           [[("id", JString "a"); ("name", JString "A");
             ("_extra", JObject [("pet", JString "cat")])]]
           [[("id", JString "b");
             ("_extra",
              JObject [("points",
                        JObject [("daily", JNumber (Num.of_Z (-1)));
                                 ("total", zero_v)])])]]
           [JString "b"]
           [("daily", JNumber (Num.of_Z 2)); ("total", JBool true)]
           [studentDoc "C" "s1" (Num.of_Z 3) (Num.of_Z 5)]
           eq_refl eq_refl).
Defined.

(** Two writes with negative points: [incrementPoints] with the delta
    [{daily: -5}] on a student at [{0, 0}] writes [points.daily = -5], and
    [saveStudentsBatch] writes the [points] of an entry's [_extra] bag as it
    finds it, here with [daily: -1]. *)
Lemma negative_points_written :
  let st := [studentDoc "C" "s1" Num.zero Num.zero] in
  let c := JString "C" in
  let s := JString "s1" in
  let bad := JObject [("daily", JNumber (Num.of_Z (-1))); ("total", zero_v)] in
  (calls (incrementPoints SampleHost.host c s
            [("daily", JNumber (Num.of_Z (-5)))] st)
   = [SetDoc (StudentRef c s)
             (pointsFields (JNumber (Num.of_Z (-5))) (JNumber Num.one))] /\
   points_nonneg (pointsFields (JNumber (Num.of_Z (-5))) (JNumber Num.one))
   = false) /\
  (calls (saveStudentsBatch SampleHost.host c []
            [[("id", s); ("_extra", JObject [("points", bad)])]] [] st)
   = [Commit [BatchSet (StudentRef c s)
                       [("name", JString ""); ("points", bad); ("id", s)]]] /\
   points_nonneg [("name", JString ""); ("points", bad); ("id", s)] = false).
Proof. repeat split. Qed.

(** *** Sorting *)

Section SortFacts.

Context {A : Type} (cmp : A -> A -> outcome Z) (f : A -> A -> Z).
Context (P : A -> Prop).

Hypothesis cmp_returns :
  forall a b, P a -> P b -> cmp a b = Returned (f a b).
Hypothesis f_sym :
  forall a b, P a -> P b -> Z.sgn (f b a) = (- Z.sgn (f a b))%Z.
Hypothesis f_trans :
  forall a b c, P a -> P b -> P c ->
                (f a b <= 0)%Z -> (f b c <= 0)%Z -> (f a c <= 0)%Z.

Let le (a b : A) : Prop := (f a b <= 0)%Z.

Lemma insert_sorted (x : A) (l : list A) :
  P x -> Forall P l -> StronglySorted le l ->
  exists r, insert cmp x l = Returned r /\
            Permutation r (x :: l) /\ StronglySorted le r /\ Forall P r.
Proof.
  intros Px. induction l as [|y l IH]; intros Pl Sl.
  - exists [x].
    split; [reflexivity|]. split; [apply Permutation_refl|].
    split; repeat constructor; exact Px.
  - inversion Pl as [|? ? Py Pl']; subst.
    inversion Sl as [|? ? Sl' Hy]; subst.
    cbn [insert]. rewrite (cmp_returns x y Px Py).
    destruct (f x y <? 0)%Z eqn:E.
    + apply Z.ltb_lt in E.
      exists (x :: y :: l).
      split; [reflexivity|]. split; [apply Permutation_refl|].
      split; [|constructor; assumption].
      constructor; [exact Sl|]. constructor; [unfold le; lia|].
      rewrite Forall_forall in Hy, Pl' |- *. intros z Hz.
      apply (f_trans x y z); auto; [lia|]. apply Hy; exact Hz.
    + apply Z.ltb_ge in E.
      destruct (IH Pl' Sl') as (r & Hr & Hperm & Hs & Hp).
      rewrite Hr. exists (y :: r).
      split; [reflexivity|]. split; [|split].
      * rewrite Hperm. apply perm_swap.
      * constructor; [exact Hs|].
        apply (Permutation_Forall (Permutation_sym Hperm)).
        constructor; [|exact Hy].
        unfold le. pose proof (f_sym x y Px Py). lia.
      * constructor; assumption.
Qed.

Lemma sortFrom_sorted (l run : list A) :
  Forall P run -> StronglySorted le run -> Forall P l ->
  exists r, sortFrom cmp run l = Returned r /\
            Permutation r (run ++ l) /\ StronglySorted le r /\ Forall P r.
Proof.
  revert run. induction l as [|x l IH]; intros run Prun Srun Pl.
  - exists run. rewrite app_nil_r. repeat split; trivial.
  - inversion Pl as [|? ? Px Pl']; subst.
    destruct (insert_sorted x run Px Prun Srun)
      as (run' & Hi & Hperm & Hs & Hp).
    destruct (IH run' Hp Hs Pl') as (r & Hr & Hperm' & Hs' & Hp').
    exists r. cbn [sortFrom]. rewrite Hi.
    split; [exact Hr|]. split; [|split; assumption].
    rewrite Hperm', Hperm. cbn [app]. apply Permutation_middle.
Qed.

Lemma sort_sorted (l : list A) :
  Forall P l ->
  exists r, sort cmp l = Returned r /\
            Permutation r l /\ StronglySorted le r /\ Forall P r.
Proof.
  intros Pl. apply (sortFrom_sorted l []); trivial; constructor.
Qed.

(** An element that none of the run is after goes to its end. *)
Lemma insert_last (x : A) (l : list A) :
  P x -> Forall P l -> Forall (fun y => le y x) l ->
  insert cmp x l = Returned (l ++ [x]).
Proof.
  intros Px. induction l as [|y l IH]; intros Pl Hl; [reflexivity|].
  inversion Pl as [|? ? Py Pl']; subst.
  inversion Hl as [|? ? Hy Hl']; subst.
  cbn [insert]. rewrite (cmp_returns x y Px Py).
  assert (E : (f x y <? 0)%Z = false).
  { apply Z.ltb_ge. unfold le in Hy. pose proof (f_sym x y Px Py). lia. }
  rewrite E. now rewrite (IH Pl' Hl').
Qed.

(** An array that is sorted comes back as it is. *)
Lemma sortFrom_sorted_input (l run : list A) :
  Forall P (run ++ l) -> StronglySorted le (run ++ l) ->
  sortFrom cmp run l = Returned (run ++ l).
Proof.
  revert run. induction l as [|x l IH]; intros run HP Hs.
  - now rewrite app_nil_r.
  - cbn [sortFrom].
    assert (Hrun : Forall (fun y => le y x) run).
    { clear - Hs. induction run as [|y run IHr]; [constructor|].
      cbn [app] in Hs. inversion Hs as [|? ? Hs' Hy]; subst.
      constructor; [|now apply IHr].
      rewrite Forall_forall in Hy. apply Hy, in_or_app. right. now left. }
    apply Forall_app in HP. destruct HP as [Prun Pl].
    inversion Pl as [|? ? Px Pl']; subst.
    rewrite (insert_last x run Px Prun Hrun).
    replace (run ++ x :: l) with ((run ++ [x]) ++ l)
      by (now rewrite <- app_assoc).
    apply IH.
    + rewrite <- app_assoc. apply Forall_app. now split.
    + now rewrite <- app_assoc.
Qed.

End SortFacts.

Lemma classRow_hasDisplayName (d : docSnap) :
  classDocTyped d = true -> hasDisplayName (classRow d).
Proof.
  destruct d as [id data]. unfold classDocTyped, hasDisplayName, classRow.
  cbn [fst snd get String.eqb Ascii.eqb Bool.eqb].
  destruct id as [| | | |i| |]; try discriminate.
  destruct (get data "displayName") as [| | | |s| |]; try discriminate;
    intros _; unfold js_or.
  - now exists i.
  - destruct (truthy (JString s)); [now exists s|now exists i].
Qed.

Lemma compareRows_returns (host : Host) (a b : jsobj) :
  hasDisplayName a -> hasDisplayName b ->
  compareRows host a b
  = Returned (collation host (displayNameOf a) (displayNameOf b)).
Proof.
  intros [sa Ha] [sb Hb]. unfold compareRows, displayNameOf, collation.
  now rewrite Ha, Hb.
Qed.

(** The row of a class document typed as the data model has it. *)
Lemma classRow_typed (d : docSnap) :
  classDocTyped d = true ->
  classRow d = [("id", fst d); ("displayName", JString (listedName d));
                ("idPrefix", listedPrefix d)].
Proof.
  destruct d as [id data].
  unfold classDocTyped, classRow, listedName, listedPrefix.
  cbn [fst snd]. unfold js_or.
  destruct id as [| | | |i| |]; try discriminate.
  destruct (get data "displayName") as [| | | |[|c s]| |];
    try discriminate; reflexivity.
Qed.

Lemma displayNameOf_classRow (d : docSnap) :
  classDocTyped d = true -> displayNameOf (classRow d) = listedName d.
Proof. intros H. now rewrite (classRow_typed d H). Qed.

Lemma sorted_rows_docs (host : Host) (docs : list docSnap) :
  forallb classDocTyped docs = true ->
  StronglySorted (rowLe host) (map classRow docs) ->
  StronglySorted (docLe host) docs.
Proof.
  induction docs as [|d docs IH]; cbn [forallb map]; intros Ht Hs;
    [constructor|].
  apply andb_prop in Ht. destruct Ht as [Hd Ht].
  inversion Hs as [|? ? Hs' Hall]; subst.
  constructor; [now apply IH|].
  rewrite Forall_map in Hall. rewrite forallb_forall in Ht.
  rewrite Forall_forall in Hall |- *. intros d' Hd'.
  specialize (Hall d' Hd'). unfold rowLe in Hall. unfold docLe.
  now rewrite (displayNameOf_classRow d Hd),
    (displayNameOf_classRow d' (Ht d' Hd')) in Hall.
Qed.

(** C5 (as the code has it).  For class documents typed as the data model
    has them, the id a string and the [displayName] a string when there is
    one, and a host whose collation under
    [{ numeric: true, sensitivity: "base" }] is consistent, [listClasses]
    returns one row [{id, displayName, idPrefix}] for each class document,
    in an order that is ascending by the name under that collation; the
    [displayName] of a row is the one the document stores, or the document
    id when it stores none or an empty one, and its [idPrefix] is the one
    stored, or the empty string when it stores none or a falsy one. *)
Theorem listClasses_sorted (host : Host) (st : Store) :
  consistent host ->
  forallb classDocTyped (classes_of st) = true ->
  exists docs : list docSnap,
    Permutation docs (classes_of st) /\
    StronglySorted (docLe host) docs /\
    listClasses host st
    = ret (map (fun d => [("id", fst d);
                          ("displayName", JString (listedName d));
                          ("idPrefix", listedPrefix d)]) docs) st.
Proof.
  intros [Hsym Htrans] Htyped.
  assert (HP : Forall hasDisplayName (map classRow (classes_of st))).
  { apply Forall_map, Forall_forall. intros d Hd.
    apply classRow_hasDisplayName.
    rewrite forallb_forall in Htyped. now apply Htyped. }
  destruct (sort_sorted (compareRows host)
              (fun a b => collation host (displayNameOf a) (displayNameOf b))
              hasDisplayName
              (compareRows_returns host)
              (fun a b _ _ => Hsym (displayNameOf a) (displayNameOf b))
              (fun a b c _ _ _ =>
                 Htrans (displayNameOf a) (displayNameOf b) (displayNameOf c))
              _ HP)
    as (rows & Hsort & Hperm & Hsorted & _).
  destruct (Permutation_map_inv classRow (classes_of st) Hperm)
    as (docs & -> & Hdocs).
  assert (Ht : forallb classDocTyped docs = true).
  { rewrite forallb_forall in Htyped |- *. intros d Hd. apply Htyped.
    apply (Permutation_in d (Permutation_sym Hdocs) Hd). }
  exists docs.
  split; [now apply Permutation_sym|].
  split; [now apply sorted_rows_docs|].
  unfold listClasses.
  rewrite (bind_returns _ (classes_of st)) by reflexivity.
  rewrite Hsort. cbn [lift]. f_equal.
  apply map_ext_in. intros d Hd. apply classRow_typed.
  rewrite forallb_forall in Ht. now apply Ht.
Qed.

(** Only strings have [localeCompare]: with display names that are numbers
    the comparator throws, and so does [listClasses]. *)
Remark listClasses_untyped_names (host : Host) :
  let st := [(ClassRef (JString "a"),
              [("displayName", JNumber (Num.of_Z 5))]);
             (ClassRef (JString "b"),
              [("displayName", JNumber (Num.of_Z 7))])] in
  result (listClasses host st)
  = Thrown (TypeError "a.displayName.localeCompare is not a function").
Proof. reflexivity. Qed.

(** The comparator asks the later row to compare itself with the earlier
    one: a [displayName] that is a number makes [listClasses] throw when its
    class is not the first of the snapshot, and is compared as its string
    when it is. *)
Remark listClasses_receiver :
  let five := (ClassRef (JString "a"),
               [("displayName", JNumber (Num.of_Z 5))]) in
  let named := (ClassRef (JString "b"), [("displayName", JString "7")]) in
  result (listClasses SampleHost.host [named; five])
  = Thrown (TypeError "a.displayName.localeCompare is not a function") /\
  result (listClasses SampleHost.host [five; named])
  = Returned [classRow (JString "a", snd five);
              classRow (JString "b", snd named)].
Proof. split; reflexivity. Qed.

(** *** The example host collates consistently *)

Module SampleHostFacts.

Import SampleHost.

Lemma lex_antisym (a b : list N) : lex b a = CompOpp (lex a b).
Proof.
  revert b. induction a as [|x a IH]; intros [|y b]; simpl; trivial.
  rewrite (N.compare_antisym x y).
  destruct (x ?= y)%N; simpl; auto.
Qed.

Lemma lex_trans (a b c : list N) :
  lex a b <> Gt -> lex b c <> Gt -> lex a c <> Gt.
Proof.
  revert b c.
  induction a as [|x a IH]; intros [|y b] [|z c]; simpl; try congruence.
  destruct (N.compare_spec x y) as [Hxy|Hxy|Hxy];
    destruct (N.compare_spec y z) as [Hyz|Hyz|Hyz];
    try congruence; intros H1 H2.
  - subst. rewrite N.compare_refl. now apply (IH b c).
  - subst. rewrite (proj2 (N.compare_lt_iff y z) Hyz). discriminate.
  - subst. rewrite (proj2 (N.compare_lt_iff x z) Hxy). discriminate.
  - rewrite (proj2 (N.compare_lt_iff x z) (N.lt_trans _ _ _ Hxy Hyz)).
    discriminate.
Qed.

Lemma collate_le (a b : string) (l o : jsval) :
  (collate a b l o <= 0)%Z <->
  lex (collation_key a None) (collation_key b None) <> Gt.
Proof.
  unfold collate.
  destruct (lex (collation_key a None) (collation_key b None));
    split; intros H; try discriminate; try lia; congruence.
Qed.

Lemma host_consistent : consistent host.
Proof.
  split.
  - intros a b. unfold collation, host. cbn [localeCompare].
    unfold collate.
    rewrite (lex_antisym (collation_key a None) (collation_key b None)).
    now destruct (lex (collation_key a None) (collation_key b None)).
  - intros a b c H1 H2.
    apply (collate_le a b JUndefined collatorOptions) in H1.
    apply (collate_le b c JUndefined collatorOptions) in H2.
    apply (collate_le a c JUndefined collatorOptions).
    exact (lex_trans _ _ _ H1 H2).
Qed.

End SampleHostFacts.

(** Three classes, one without [displayName]: they come back as
    [class 1], [Class 2], [Class 10]. *)
Lemma listClasses_sorted_witness :
  let st := [(ClassRef (JString "Class 10"),
              [("displayName", JString "Class 10"); ("idPrefix", JString "T")]);
             (ClassRef (JString "c2"), [("displayName", JString "Class 2")]);
             (ClassRef (JString "class 1"), [])] in
  (exists docs : list docSnap,
      Permutation docs (classes_of st) /\
      StronglySorted (docLe SampleHost.host) docs /\
      listClasses SampleHost.host st
      = ret (map (fun d => [("id", fst d);
                            ("displayName", JString (listedName d));
                            ("idPrefix", listedPrefix d)]) docs) st) /\
  result (listClasses SampleHost.host st)
  = Returned
      [[("id", JString "class 1"); ("displayName", JString "class 1");
        ("idPrefix", JString "")];
       [("id", JString "c2"); ("displayName", JString "Class 2");
        ("idPrefix", JString "")];
       [("id", JString "Class 10"); ("displayName", JString "Class 10");
        ("idPrefix", JString "T")]].
Proof.
  split.
  - exact (listClasses_sorted SampleHost.host
             [(ClassRef (JString "Class 10"),
               [("displayName", JString "Class 10"); ("idPrefix", JString "T")]);
              (ClassRef (JString "c2"), [("displayName", JString "Class 2")]);
              (ClassRef (JString "class 1"), [])]
             SampleHostFacts.host_consistent eq_refl).
  - reflexivity.
Defined.

(** Two class documents whose [displayName] is a number, as any client of
    the database can store them: [listClasses] returns no sequence, it
    throws, whichever of the two rows the engine asks to compare itself
    with the other. *)
Lemma listClasses_throws :
  let a := [("id", JString "a"); ("displayName", JNumber (Num.of_Z 5));
            ("idPrefix", JString "")] in
  let b := [("id", JString "b"); ("displayName", JNumber (Num.of_Z 7));
            ("idPrefix", JString "")] in
  let st := [(ClassRef (JString "a"),
              [("displayName", JNumber (Num.of_Z 5))]);
             (ClassRef (JString "b"),
              [("displayName", JNumber (Num.of_Z 7))])] in
  map classRow (classes_of st) = [a; b] /\
  compareRows SampleHost.host a b
  = Thrown (TypeError "a.displayName.localeCompare is not a function") /\
  compareRows SampleHost.host b a
  = Thrown (TypeError "a.displayName.localeCompare is not a function") /\
  result (listClasses SampleHost.host st)
  = Thrown (TypeError "a.displayName.localeCompare is not a function").
Proof. repeat split. Qed.


(** * More of the module *)

(** ** [toInt] *)

(** X1.  [toInt(toInt(x))] is [toInt(x)] for every input [x]. *)
Theorem toInt_twice (host : Host) (x : jsval) :
  toInt host (JNumber (toInt host x)) = toInt host x.
Proof. apply toInt_idempotent. Qed.

(** X2.  [toInt] never returns a negative number or NaN; it returns [0]
    for every input that does not convert to a number, and for [undefined],
    NaN and [-0]. *)
Theorem toInt_floor_zero (host : Host) (x : jsval) :
  Num.leb Num.zero (toInt host x) = true /\
  (ToNumber host x = Num.nan -> toInt host x = Num.zero) /\
  toInt host JUndefined = Num.zero /\
  toInt host (JNumber Num.nan) = Num.zero /\
  toInt host (JNumber Num.neg_zero) = Num.zero.
Proof.
  split; [apply toInt_nonneg|].
  split; [apply toInt_not_numeric|].
  repeat split.
Qed.

(** X3.  On an input that converts to a finite number whose integer part
    (toward zero) is [z], [toInt] returns the integer [max(0, z)]. *)
Theorem toInt_truncates (host : Host) (x : jsval) (z : Z) :
  Num.integer_part (ToNumber host x) = Some z ->
  Num.integer_part (toInt host x) = Some (Z.max 0 z) /\
  Num.isInteger (toInt host x) = true.
Proof.
  intros H. split; [now apply toInt_value|].
  apply toInt_integer. intros E. rewrite E in H. discriminate.
Qed.

(** [toInt(7.5)] is [7]. *)
Lemma toInt_truncates_witness :
  Num.integer_part (toInt SampleHost.host (JNumber seven_and_a_half))
  = Some (Z.max 0 7) /\
  Num.isInteger (toInt SampleHost.host (JNumber seven_and_a_half)) = true.
Proof.
  exact (toInt_truncates SampleHost.host (JNumber seven_and_a_half) 7 eq_refl).
Defined.

(** ** [normalizeStudent] *)

Lemma toInt_or_zero (host : Host) (n : number) :
  toInt host (js_or (JNumber n) zero_v) = toInt host (JNumber n).
Proof.
  unfold js_or. cbn [truthy].
  destruct n as [s|s| |s m e]; reflexivity.
Qed.

(** Without anything to spread from [_extra], the result has exactly the
    fields [name], [points] and [id]. *)
Lemma normalizeStudent_plain (host : Host) (s : jsobj) :
  own_props (get s "_extra") = [] ->
  normalizeStudent host s
  = [("name", nullish (get s "name") (JString ""));
     ("points",
      JObject
        [("daily",
          JNumber (toInt host
                     (js_or (nullish (get s "daily")
                                     (opt_member (get s "points") "daily"))
                            zero_v)));
         ("total",
          JNumber (toInt host
                     (js_or (nullish
                               (nullish (opt_member (get s "points") "total")
                                        (get s "total"))
                               (get s "points"))
                            zero_v)))]);
     ("id", get s "id")].
Proof.
  intros H. unfold normalizeStudent, spread at 1. rewrite H. reflexivity.
Qed.

Lemma nullish_twice (a d : jsval) : nullish (nullish a d) d = nullish a d.
Proof. destruct a; trivial; destruct d; trivial. Qed.

(** X4.  Normalizing twice is normalizing once, for an entry whose [_extra]
    has nothing to spread. *)
Theorem normalizeStudent_twice (host : Host) (s : jsobj) :
  own_props (get s "_extra") = [] ->
  normalizeStudent host (normalizeStudent host s) = normalizeStudent host s.
Proof.
  intros H.
  rewrite (normalizeStudent_plain host s H).
  rewrite normalizeStudent_plain by reflexivity.
  cbn [get String.eqb Ascii.eqb Bool.eqb opt_member member nullish].
  rewrite nullish_twice, !toInt_or_zero, !toInt_idempotent.
  reflexivity.
Qed.

Lemma normalizeStudent_twice_witness :
  let s := [("id", JString "a"); ("name", JString "A");
            ("daily", JNumber seven_and_a_half);
            ("points", JNumber (Num.of_Z (-3)))] in
  normalizeStudent SampleHost.host (normalizeStudent SampleHost.host s)
  = normalizeStudent SampleHost.host s.
Proof.
  exact (normalizeStudent_twice SampleHost.host
           [("id", JString "a"); ("name", JString "A");
            ("daily", JNumber seven_and_a_half);
            ("points", JNumber (Num.of_Z (-3)))] eq_refl).
Defined.

Lemma spread_base (n : jsval) :
  spread [] (JObject [("name", n); ("points", JObject [])])
  = [("name", n); ("points", JObject [])].
Proof. reflexivity. Qed.

(** X5.  A field of the entry other than [name], [points] and [id] is not
    in the normalized record, unless [_extra] brings it. *)
Theorem normalizeStudent_drops_fields (host : Host) (s : jsobj) (k : string) :
  k <> "name" -> k <> "points" -> k <> "id" ->
  has (own_props (get s "_extra")) k = false ->
  get (normalizeStudent host s) k = JUndefined.
Proof.
  intros Hn Hp Hi Hx. unfold normalizeStudent, spread at 1.
  rewrite get_assign_absent by exact Hx.
  rewrite !get_set_other by congruence.
  rewrite spread_base. cbn [get].
  apply not_eq_sym, String.eqb_neq in Hn.
  apply not_eq_sym, String.eqb_neq in Hp.
  now rewrite Hn, Hp.
Qed.

(** An entry with a pet name beside its points: the pet name is dropped. *)
Lemma normalizeStudent_drops_fields_witness :
  get (normalizeStudent SampleHost.host
         [("id", JString "a"); ("petName", JString "Rex");
          ("_extra", JObject [("note", JString "n")])]) "petName"
  = JUndefined.
Proof.
  refine (normalizeStudent_drops_fields SampleHost.host
            [("id", JString "a"); ("petName", JString "Rex");
             ("_extra", JObject [("note", JString "n")])] "petName"
            _ _ _ eq_refl); discriminate.
Defined.

(** X6.  With a top-level [daily] and a [points] map holding [total], both
    numbers, the normalized points are [toInt] of these two, whatever
    [points.daily] and the top-level [total] are. *)
Theorem normalizeStudent_precedence (host : Host) (s p : jsobj)
        (d t : number) :
  extra_keeps_points s = true ->
  get s "daily" = JNumber d ->
  get s "points" = JObject p ->
  get p "total" = JNumber t ->
  get (normalizeStudent host s) "points"
  = JObject [("daily", JNumber (toInt host (JNumber d)));
             ("total", JNumber (toInt host (JNumber t)))].
Proof.
  intros Hx Hd Hp Ht. apply Bool.negb_true_iff in Hx.
  unfold normalizeStudent, spread at 1.
  rewrite get_assign_absent by exact Hx.
  rewrite get_set_same, Hd, Hp.
  cbn [nullish opt_member member]. rewrite Ht.
  cbn [nullish]. now rewrite !toInt_or_zero.
Qed.

Lemma normalizeStudent_precedence_witness :
  let p := [("daily", JNumber (Num.of_Z 9)); ("total", JNumber (Num.of_Z 4))] in
  let s := [("id", JString "a"); ("daily", JNumber (Num.of_Z 2));
            ("total", JNumber (Num.of_Z 8)); ("points", JObject p)] in
  get (normalizeStudent SampleHost.host s) "points"
  = JObject
      [("daily", JNumber (toInt SampleHost.host (JNumber (Num.of_Z 2))));
       ("total", JNumber (toInt SampleHost.host (JNumber (Num.of_Z 4))))].
Proof.
  exact (normalizeStudent_precedence SampleHost.host
           [("id", JString "a"); ("daily", JNumber (Num.of_Z 2));
            ("total", JNumber (Num.of_Z 8));
            ("points",
             JObject [("daily", JNumber (Num.of_Z 9));
                      ("total", JNumber (Num.of_Z 4))])]
           [("daily", JNumber (Num.of_Z 9)); ("total", JNumber (Num.of_Z 4))]
           (Num.of_Z 2) (Num.of_Z 4) eq_refl eq_refl eq_refl eq_refl).
Defined.

(** X7.  The old shape, [points] a plain number and neither [daily] nor
    [total]: the number becomes the total, and the daily points are [0]. *)
Theorem normalizeStudent_plain_points (host : Host) (s : jsobj) (n : number) :
  extra_keeps_points s = true ->
  get s "points" = JNumber n ->
  get s "daily" = JUndefined ->
  get s "total" = JUndefined ->
  get (normalizeStudent host s) "points"
  = JObject [("daily", zero_v);
             ("total", JNumber (toInt host (JNumber n)))].
Proof.
  intros Hx Hp Hd Ht. apply Bool.negb_true_iff in Hx.
  unfold normalizeStudent, spread at 1.
  rewrite get_assign_absent by exact Hx.
  rewrite get_set_same, Hd, Hp, Ht.
  cbn [nullish opt_member member]. now rewrite toInt_or_zero.
Qed.

Lemma normalizeStudent_plain_points_witness :
  get (normalizeStudent SampleHost.host
         [("id", JString "a"); ("points", JNumber seven_and_a_half)]) "points"
  = JObject
      [("daily", zero_v);
       ("total", JNumber (toInt SampleHost.host (JNumber seven_and_a_half)))].
Proof.
  exact (normalizeStudent_plain_points SampleHost.host
           [("id", JString "a"); ("points", JNumber seven_and_a_half)]
           seven_and_a_half eq_refl eq_refl eq_refl eq_refl).
Defined.

(** ** Merge-writes *)


Lemma has_keys (o : jsobj) (k : string) :
  has o k = true <-> In k (keys o).
Proof.
  induction o as [|[k0 v0] o IH]; simpl; [split; [discriminate|tauto]|].
  rewrite Bool.orb_true_iff, IH, String.eqb_eq. tauto.
Qed.

Lemma get_merge_doc_absent (new old : jsobj) (k : string) :
  has new k = false -> get (merge_doc new old) k = get old k.
Proof.
  unfold merge_doc. revert old.
  induction new as [|[k0 v0] new IH]; intros old H; simpl; trivial.
  simpl in H. apply Bool.orb_false_iff in H. destruct H as [H0 H].
  rewrite IH by exact H. apply get_set_other. now apply String.eqb_neq.
Qed.

Lemma get_merge_doc_present (new old : jsobj) (k : string) (v : jsval) :
  NoDup (keys new) -> In (k, v) new ->
  get (merge_doc new old) k = merge_value v (get old k).
Proof.
  unfold merge_doc. revert old.
  induction new as [|[k0 v0] new IH]; intros old Hnd Hin; [contradiction|].
  inversion Hnd as [|? ? Hk0 Hnd']; subst. cbn [fold_left fst snd].
  destruct Hin as [E|Hin].
  - injection E as -> ->.
    assert (Hk : has new k = false).
    { destruct (has new k) eqn:Hh; trivial.
      apply has_keys in Hh. contradiction. }
    rewrite (get_merge_doc_absent new _ k Hk). apply get_set_same.
  - rewrite (IH _ Hnd' Hin). f_equal. apply get_set_other.
    intros ->. apply Hk0. apply (in_map fst) in Hin. exact Hin.
Qed.


(** The fields of the document before a write, none when it is absent. *)
Lemma store_get_set (st : Store) (r : docRef) (new : jsobj) :
  store_get (store_set r new st) r
  = Some (merge_doc new match store_get st r with
                        | Some old => old
                        | None => []
                        end).
Proof.
  induction st as [|[r' d] st IH]; simpl.
  - now rewrite docRef_eqb_refl.
  - destruct (docRef_eqb r' r) eqn:E; simpl; rewrite E; trivial.
Qed.

Lemma store_get_set_other (st : Store) (r r' : docRef) (new : jsobj) :
  r <> r' -> store_get (store_set r new st) r' = store_get st r'.
Proof.
  intros Hr. induction st as [|[r0 d] st IH]; simpl.
  - destruct (docRef_eqb r r') eqn:E; trivial.
    apply docRef_eqb_eq in E. contradiction.
  - destruct (docRef_eqb r0 r) eqn:E; simpl.
    + apply docRef_eqb_eq in E. subst r0.
      destruct (docRef_eqb r r') eqn:E'; trivial.
      apply docRef_eqb_eq in E'. contradiction.
    + now rewrite IH.
Qed.


(** ** [getStudent], [setStudent], [setStudentString] *)





(** ** Point actions *)

(** What a merge-write of [{ points: { daily, total } }] leaves in the
    student document, present before or not. *)
Lemma studentPoint_set (st : Store) (classId studentId : jsval)
      (daily total : jsval) :
  is_leaf daily = true -> is_leaf total = true ->
  let st' := store_set (StudentRef classId studentId)
                       (pointsFields daily total) st in
  studentPoint st' classId studentId "daily" = daily /\
  studentPoint st' classId studentId "total" = total.
Proof.
  intros Hd Ht st'. unfold studentPoint, st'. rewrite store_get_set.
  unfold pointsFields, merge_doc, storedPoint. cbn [fold_left fst snd].
  rewrite get_set_same. cbn [merge_value fold_left fst snd].
  rewrite (merge_value_leaf daily), (merge_value_leaf total) by assumption.
  split.
  - rewrite get_set_other by discriminate. apply get_set_same.
  - apply get_set_same.
Qed.

(** Such a write changes no other field of the student and no other
    document. *)
Lemma points_write_frame (st : Store) (classId studentId : jsval)
      (daily total : jsval) :
  let st' := store_set (StudentRef classId studentId)
                       (pointsFields daily total) st in
  (forall k, k <> "points" ->
             studentField st' classId studentId k
             = studentField st classId studentId k) /\
  (forall r, r <> StudentRef classId studentId ->
             store_get st' r = store_get st r).
Proof.
  cbv zeta. split.
  - intros k Hk. unfold studentField. rewrite store_get_set.
    rewrite get_merge_doc_absent.
    + now destruct (store_get st (StudentRef classId studentId)).
    + cbn [pointsFields has]. apply not_eq_sym, String.eqb_neq in Hk.
      now rewrite Hk.
  - intros r Hr. apply store_get_set_other. congruence.
Qed.

Lemma incrementPoints_points (host : Host) (classId studentId : jsval)
      (delta : jsobj) (st : Store) (d t : number) :
  studentPoint st classId studentId "daily" = JNumber d ->
  studentPoint st classId studentId "total" = JNumber t ->
  let r := incrementPoints host classId studentId delta st in
  result r = Returned tt /\
  studentPoint (final r) classId studentId "daily"
  = js_add host (JNumber (toInt host (JNumber d)))
           (or_default (get delta "daily") (JNumber Num.one)) /\
  studentPoint (final r) classId studentId "total"
  = js_add host (JNumber (toInt host (JNumber t)))
           (or_default (get delta "total") (JNumber Num.one)).
Proof.
  intros Hd Ht.
  destruct (studentPoint_number _ _ _ _ _ Hd) as (data & p & Hget & Hp & Hpd).
  destruct (studentPoint_number _ _ _ _ _ Ht) as (data' & p' & Hget' & Hp' & Hpt).
  assert (data' = data) by congruence. subst data'.
  assert (p' = p) by congruence. subst p'.
  cbv zeta. rewrite incrementPoints_run, Hget, Hp.
  cbn [js_or truthy member]. rewrite Hpd, Hpt.
  split; [reflexivity|].
  apply studentPoint_set; apply js_add_leaf.
Qed.

(** X11.  On a student whose points are numbers [d] and [t],
    [incrementPoints] with numeric deltas stores [toInt(d) + daily] and
    [toInt(t) + total]; with the deltas left out it stores [toInt(d) + 1]
    and [toInt(t) + 1]. *)
Theorem incrementPoints_sums (host : Host) (classId studentId : jsval)
        (st : Store) (d t dd dt : number) :
  studentPoint st classId studentId "daily" = JNumber d ->
  studentPoint st classId studentId "total" = JNumber t ->
  let r := incrementPoints host classId studentId (deltas dd dt) st in
  let r1 := incrementPoints host classId studentId [] st in
  (studentPoint (final r) classId studentId "daily"
   = JNumber (Num.add (toInt host (JNumber d)) dd) /\
   studentPoint (final r) classId studentId "total"
   = JNumber (Num.add (toInt host (JNumber t)) dt)) /\
  (studentPoint (final r1) classId studentId "daily"
   = JNumber (Num.add (toInt host (JNumber d)) Num.one) /\
   studentPoint (final r1) classId studentId "total"
   = JNumber (Num.add (toInt host (JNumber t)) Num.one)).
Proof.
  intros Hd Ht. cbv zeta.
  destruct (incrementPoints_points host classId studentId (deltas dd dt)
              st d t Hd Ht) as (_ & D & T).
  destruct (incrementPoints_points host classId studentId [] st d t Hd Ht)
    as (_ & D1 & T1).
  repeat split; assumption.
Qed.

Lemma incrementPoints_sums_witness :
  let st := [studentDoc "C" "s1" (Num.of_Z 3) seven_and_a_half] in
  let c := JString "C" in
  let s := JString "s1" in
  let host := SampleHost.host in
  let r := incrementPoints host c s (deltas (Num.of_Z 2) (Num.of_Z (-1))) st in
  let r1 := incrementPoints host c s [] st in
  (studentPoint (final r) c s "daily"
   = JNumber (Num.add (toInt host (JNumber (Num.of_Z 3))) (Num.of_Z 2)) /\
   studentPoint (final r) c s "total"
   = JNumber (Num.add (toInt host (JNumber seven_and_a_half))
                      (Num.of_Z (-1)))) /\
  (studentPoint (final r1) c s "daily"
   = JNumber (Num.add (toInt host (JNumber (Num.of_Z 3))) Num.one) /\
   studentPoint (final r1) c s "total"
   = JNumber (Num.add (toInt host (JNumber seven_and_a_half)) Num.one)).
Proof.
  exact (incrementPoints_sums SampleHost.host (JString "C") (JString "s1")
           [studentDoc "C" "s1" (Num.of_Z 3) seven_and_a_half]
           (Num.of_Z 3) seven_and_a_half (Num.of_Z 2) (Num.of_Z (-1))
           eq_refl eq_refl).
Defined.



(** X13.  A delta that is a string is not added but appended: the points
    field written is the string made of the old number's digits and the
    delta. *)
Theorem incrementPoints_string_delta (host : Host) (classId studentId : jsval)
        (delta : jsobj) (st : Store) (d t : number) (w : string) :
  studentPoint st classId studentId "daily" = JNumber d ->
  studentPoint st classId studentId "total" = JNumber t ->
  get delta "daily" = JString w ->
  studentPoint (final (incrementPoints host classId studentId delta st))
               classId studentId "daily"
  = JString (NumberToString host (toInt host (JNumber d)) ++ w).
Proof.
  intros Hd Ht Hw.
  destruct (incrementPoints_points host classId studentId delta st d t Hd Ht)
    as (_ & D & _).
  rewrite D, Hw. reflexivity.
Qed.

Lemma incrementPoints_string_delta_witness :
  studentPoint
    (final (incrementPoints SampleHost.host (JString "C") (JString "s1")
              [("daily", JString "2")]
              [studentDoc "C" "s1" (Num.of_Z 3) (Num.of_Z 5)]))
    (JString "C") (JString "s1") "daily"
  = JString (NumberToString SampleHost.host
               (toInt SampleHost.host (JNumber (Num.of_Z 3))) ++ "2").
Proof.
  exact (incrementPoints_string_delta SampleHost.host (JString "C")
           (JString "s1") [("daily", JString "2")]
           [studentDoc "C" "s1" (Num.of_Z 3) (Num.of_Z 5)]
           (Num.of_Z 3) (Num.of_Z 5) "2" eq_refl eq_refl eq_refl).
Defined.

(** X14.  [incrementPoints], [resetDaily] and [resetTotal] change nothing
    but the student's [points]: every other field of the student and every
    other document is as before. *)
Theorem point_actions_frame (host : Host) (classId studentId : jsval)
        (delta : jsobj) (st : Store) :
  let unchanged (st' : Store) :=
    (forall k, k <> "points" ->
               studentField st' classId studentId k
               = studentField st classId studentId k) /\
    (forall r, r <> StudentRef classId studentId ->
               store_get st' r = store_get st r) in
  unchanged (final (incrementPoints host classId studentId delta st)) /\
  unchanged (final (resetDaily host classId studentId st)) /\
  unchanged (final (resetTotal host classId studentId st)).
Proof.
  cbv zeta.
  rewrite incrementPoints_run, resetDaily_run, resetTotal_run.
  split; [apply points_write_frame|].
  destruct (store_get st (StudentRef classId studentId)) eqn:E.
  - split; apply points_write_frame.
  - repeat split.
Qed.

Lemma studentPoint_stored (st : Store) (classId studentId : jsval)
      (data : jsobj) (k : string) :
  store_get st (StudentRef classId studentId) = Some data ->
  studentPoint st classId studentId k = storedPoint data k.
Proof. intros H. unfold studentPoint. now rewrite H. Qed.

(** The points after a reset of an existing student. *)
Lemma reset_points (host : Host) (classId studentId : jsval) (st : Store) :
  store_get st (StudentRef classId studentId) <> None ->
  let rd := resetDaily host classId studentId st in
  let rt := resetTotal host classId studentId st in
  (result rd = Returned tt /\
   store_get (final rd) (StudentRef classId studentId) <> None /\
   studentPoint (final rd) classId studentId "daily" = zero_v /\
   studentPoint (final rd) classId studentId "total"
   = JNumber (toInt host (studentPoint st classId studentId "total"))) /\
  (result rt = Returned tt /\
   store_get (final rt) (StudentRef classId studentId) <> None /\
   studentPoint (final rt) classId studentId "total" = zero_v /\
   studentPoint (final rt) classId studentId "daily"
   = JNumber (toInt host (studentPoint st classId studentId "daily"))).
Proof.
  intros Hex. cbv zeta. rewrite resetDaily_run, resetTotal_run.
  destruct (store_get st (StudentRef classId studentId)) as [data|] eqn:Hget;
    [|contradiction].
  rewrite !(studentPoint_stored st classId studentId data) by exact Hget.
  cbn [setDoc result final].
  split; (split; [reflexivity|]; split;
          [rewrite store_get_set; discriminate|]).
  - apply studentPoint_set; reflexivity.
  - apply and_comm. apply studentPoint_set; reflexivity.
Qed.

(** X15.  On an existing student, [resetDaily] followed by [resetTotal]
    leaves the points at [{0, 0}], and a second [resetDaily] changes neither
    of the two points. *)
Theorem resets_compose (host : Host) (classId studentId : jsval) (st : Store) :
  store_get st (StudentRef classId studentId) <> None ->
  let both := (resetDaily host classId studentId ;;
               resetTotal host classId studentId) st in
  let once := resetDaily host classId studentId st in
  let twice := (resetDaily host classId studentId ;;
                resetDaily host classId studentId) st in
  (studentPoint (final both) classId studentId "daily" = zero_v /\
   studentPoint (final both) classId studentId "total" = zero_v) /\
  (studentPoint (final twice) classId studentId "daily"
   = studentPoint (final once) classId studentId "daily" /\
   studentPoint (final twice) classId studentId "total"
   = studentPoint (final once) classId studentId "total").
Proof.
  intros Hex. cbv zeta.
  destruct (reset_points host classId studentId st Hex)
    as [(R1 & E1 & D1 & T1) _].
  destruct (reset_points host classId studentId _ E1)
    as [(_ & _ & D2 & T2) (_ & _ & T3 & D3)].
  destruct (bind_step _ (fun _ => resetTotal host classId studentId) st tt R1)
    as [_ Hf1].
  destruct (bind_step _ (fun _ => resetDaily host classId studentId) st tt R1)
    as [_ Hf2].
  rewrite Hf1, Hf2.
  split; split.
  - rewrite D3, D1. reflexivity.
  - exact T3.
  - now rewrite D2, D1.
  - rewrite T2, T1. f_equal. apply toInt_idempotent.
Qed.

Lemma resets_compose_witness :
  let st := [studentDoc "C" "s1" (Num.of_Z 3) seven_and_a_half] in
  let c := JString "C" in
  let s := JString "s1" in
  let host := SampleHost.host in
  let both := (resetDaily host c s ;; resetTotal host c s) st in
  let once := resetDaily host c s st in
  let twice := (resetDaily host c s ;; resetDaily host c s) st in
  (studentPoint (final both) c s "daily" = zero_v /\
   studentPoint (final both) c s "total" = zero_v) /\
  (studentPoint (final twice) c s "daily"
   = studentPoint (final once) c s "daily" /\
   studentPoint (final twice) c s "total"
   = studentPoint (final once) c s "total").
Proof.
  refine (resets_compose SampleHost.host (JString "C") (JString "s1")
            [studentDoc "C" "s1" (Num.of_Z 3) seven_and_a_half] _).
  discriminate.
Defined.

(** ** Committed batches *)

















(** ** [addDailyToAll] *)






(** A class of 401 students gets one commit of 401 operations. *)
Remark addDailyToAll_401 :
  map commit_size
      (calls (addDailyToAll SampleHost.host (JString "C") (roster "C" 401)))
  = [Some 401].
Proof. vm_compute. reflexivity. Qed.

Lemma store_get_In (st : Store) (r : docRef) (data : jsobj) :
  store_get st r = Some data -> In (r, data) st.
Proof.
  induction st as [|[r' d] st IH]; simpl; [discriminate|].
  destruct (docRef_eqb r' r) eqn:E.
  - apply docRef_eqb_eq in E. intros [= ->]. left. now subst.
  - intros H. right. now apply IH.
Qed.




(** ** [deleteClass] *)








(** ** [createClass] and [listClasses] *)

Lemma In_classes_of (c : jsval) (data : jsobj) (st : Store) :
  In (c, data) (classes_of st) <-> In (ClassRef c, data) st.
Proof.
  induction st as [|[[c'|c' s'|p] d] st IH]; simpl.
  - tauto.
  - rewrite IH. split; (intros [H|H]; [left; congruence|tauto]).
  - rewrite IH. split; [tauto|]. intros [H|H]; [discriminate|trivial].
  - rewrite IH. split; [tauto|]. intros [H|H]; [discriminate|trivial].
Qed.

(** X22.  After [createClass] with a name that is a non-empty string
    without [/] and a prefix that is a string, or another truthy leaf value,
    the class document exists under the name, holds the name, the prefix
    and the time of the call, keeps the other fields it had, and is among
    the documents the class query returns, where [listClasses] reads it as
    [{id: name, displayName: name, idPrefix}]; every other document is as
    before. *)
Theorem createClass_stores (host : Host) (now : number) (name : string)
        (idPrefix : jsval) (st : Store) :
  name <> "" -> slashFree name = true ->
  truthy idPrefix = true -> is_leaf idPrefix = true ->
  let displayName := JString name in
  let r := createClass host now displayName idPrefix st in
  let st' := final r in
  result r = Returned tt /\
  exists data,
    store_get st' (ClassRef displayName) = Some data /\
    In (displayName, data) (classes_of st') /\
    get data "displayName" = displayName /\
    get data "idPrefix" = idPrefix /\
    get data "createdAt" = JNumber now /\
    classRow (displayName, data)
    = [("id", displayName); ("displayName", displayName);
       ("idPrefix", idPrefix)] /\
    (forall k, has (classFields now displayName idPrefix) k = false ->
               get data k = docField st (ClassRef displayName) k) /\
    (forall r, r <> ClassRef displayName -> store_get st' r = store_get st r).
Proof.
  intros Hne Hsf Hip Lip. cbv zeta.
  assert (Hdn : truthy (JString name) = true)
    by (destruct name; [congruence|reflexivity]).
  rewrite (createClass_run host now (JString name) idPrefix st Hdn Hip).
  rewrite (doc_name host name Hsf Hne). cbn [setDoc result final].
  fold (classFields now (JString name) idPrefix).
  split; [reflexivity|].
  eexists. split; [apply store_get_set|].
  assert (Hnd : NoDup (keys (classFields now (JString name) idPrefix)))
    by (repeat constructor; simpl; intuition discriminate).
  assert (Hd : get (merge_doc (classFields now (JString name) idPrefix)
                      match store_get st (ClassRef (JString name)) with
                      | Some old => old
                      | None => []
                      end) "displayName" = JString name).
  { now rewrite (get_merge_doc_present _ _ "displayName" (JString name) Hnd)
      by (now left). }
  assert (Hp : get (merge_doc (classFields now (JString name) idPrefix)
                      match store_get st (ClassRef (JString name)) with
                      | Some old => old
                      | None => []
                      end) "idPrefix" = idPrefix).
  { rewrite (get_merge_doc_present _ _ "idPrefix" idPrefix Hnd)
      by (right; now left).
    now apply merge_value_leaf. }
  split; [|split; [exact Hd|split; [exact Hp|split; [|split; [|split]]]]].
  - apply In_classes_of, store_get_In, store_get_set.
  - now rewrite (get_merge_doc_present _ _ "createdAt" (JNumber now) Hnd)
      by (right; right; now left).
  - unfold classRow. cbn [fst snd]. rewrite Hd, Hp.
    unfold js_or. now rewrite Hdn, Hip.
  - intros k Hk. rewrite get_merge_doc_absent by exact Hk.
    unfold docField. now destruct (store_get st (ClassRef (JString name))).
  - intros r Hr. apply store_get_set_other. congruence.
Qed.

(** Class [7B] created again with a new prefix: its colour stays. *)
Lemma createClass_stores_witness :
  let st := [(ClassRef (JString "7B"),
              [("displayName", JString "7B"); ("idPrefix", JString "b");
               ("colour", JString "red")])] in
  let now := Num.of_Z 1700000000000 in
  let r := createClass SampleHost.host now (JString "7B") (JString "B7") st in
  let st' := final r in
  (result r = Returned tt /\
   exists data,
     store_get st' (ClassRef (JString "7B")) = Some data /\
     In (JString "7B", data) (classes_of st') /\
     get data "displayName" = JString "7B" /\
     get data "idPrefix" = JString "B7" /\
     get data "createdAt" = JNumber now /\
     classRow (JString "7B", data)
     = [("id", JString "7B"); ("displayName", JString "7B");
        ("idPrefix", JString "B7")] /\
     (forall k, has (classFields now (JString "7B") (JString "B7")) k = false ->
                get data k = docField st (ClassRef (JString "7B")) k) /\
     (forall r, r <> ClassRef (JString "7B") ->
                store_get st' r = store_get st r)) /\
  docField st' (ClassRef (JString "7B")) "colour" = JString "red".
Proof.
  split; [|reflexivity].
  refine (createClass_stores SampleHost.host (Num.of_Z 1700000000000) "7B"
            (JString "B7")
            [(ClassRef (JString "7B"),
              [("displayName", JString "7B"); ("idPrefix", JString "b");
               ("colour", JString "red")])]
            _ eq_refl eq_refl eq_refl).
  discriminate.
Defined.

(** X23.  When the class documents come in an order that is already sorted
    by display name, [listClasses] returns their rows in that order: rows the
    collation does not tell apart keep the order of the snapshot. *)
Theorem listClasses_keeps_sorted (host : Host) (st : Store) :
  consistent host ->
  forallb classDocTyped (classes_of st) = true ->
  StronglySorted (rowLe host) (map classRow (classes_of st)) ->
  listClasses host st = ret (map classRow (classes_of st)) st.
Proof.
  intros [Hsym _] Htyped Hsorted.
  assert (HP : Forall hasDisplayName (map classRow (classes_of st))).
  { apply Forall_map, Forall_forall. intros d Hd.
    apply classRow_hasDisplayName.
    rewrite forallb_forall in Htyped. now apply Htyped. }
  unfold listClasses.
  rewrite (bind_returns _ (classes_of st)) by reflexivity.
  unfold sort.
  rewrite (sortFrom_sorted_input (compareRows host)
             (fun a b => collation host (displayNameOf a) (displayNameOf b))
             hasDisplayName (compareRows_returns host)
             (fun a b _ _ => Hsym (displayNameOf a) (displayNameOf b))
             _ [] HP Hsorted).
  reflexivity.
Qed.

(** [b] and [B] collate alike: they keep the order they come in. *)
Lemma listClasses_keeps_sorted_witness :
  let st := [(ClassRef (JString "a"), []);
             (ClassRef (JString "b"), [("idPrefix", JString "x")]);
             (ClassRef (JString "B"), [])] in
  listClasses SampleHost.host st = ret (map classRow (classes_of st)) st.
Proof.
  refine (listClasses_keeps_sorted SampleHost.host
            [(ClassRef (JString "a"), []);
             (ClassRef (JString "b"), [("idPrefix", JString "x")]);
             (ClassRef (JString "B"), [])]
            SampleHostFacts.host_consistent eq_refl _).
  repeat constructor; unfold rowLe; vm_compute; discriminate.
Defined.

(** ** Edits of existing students, and the roster after an increment *)





(** A merge-write leaves the student ids of a class's snapshot, and their
    order, as they are when the document written exists. *)
Lemma students_of_set_ids (classId : jsval) (r : docRef) (data old : jsobj)
      (st : Store) :
  store_get st r = Some old ->
  map fst (students_of classId (store_set r data st))
  = map fst (students_of classId st).
Proof.
  induction st as [|[r' d] st IH]; cbn [store_get store_set];
    [discriminate|].
  destruct (docRef_eqb r' r) eqn:E; intros H.
  - destruct r' as [c|c s|p]; cbn [students_of]; trivial.
    destruct (jsval_eq_dec c classId); trivial.
  - specialize (IH H). destruct r' as [c|c s|p]; cbn [students_of]; trivial.
    destruct (jsval_eq_dec c classId); cbn [map fst]; congruence.
Qed.

(** The row of a student document whose points are numbers. *)
Lemma studentRow_numbers (id : jsval) (data : jsobj) (d t : number) :
  storedPoint data "daily" = JNumber d ->
  storedPoint data "total" = JNumber t ->
  get (studentRow (id, data)) "id" = id /\
  get (studentRow (id, data)) "points" = JNumber t /\
  get (studentRow (id, data)) "daily" = JNumber d.
Proof.
  unfold storedPoint, studentRow. cbn [fst snd].
  destruct (get data "points") as [| | | | |p|]; try discriminate.
  intros Hd Ht. cbn [truthy member andb]. rewrite Hd, Ht. now cbn.
Qed.

(** X25.  After [incrementPoints] with numeric deltas on a student whose
    points are numbers, the rows that [watchClass] hands to [onStudents] have
    the ids they had, in the same order, and the student's row shows the new
    total as [points] and the new daily count as [daily]. *)
Theorem incrementPoints_in_rows (host : Host) (classId studentId : jsval)
        (st : Store) (d t dd dt : number) :
  studentPoint st classId studentId "daily" = JNumber d ->
  studentPoint st classId studentId "total" = JNumber t ->
  let r := incrementPoints host classId studentId (deltas dd dt) st in
  let rows := onStudentsSnapshot (students_of classId (final r)) in
  map (fun row => get row "id") rows
  = map fst (students_of classId st) /\
  exists row,
    In row rows /\
    get row "id" = studentId /\
    get row "points" = JNumber (Num.add (toInt host (JNumber t)) dt) /\
    get row "daily" = JNumber (Num.add (toInt host (JNumber d)) dd).
Proof.
  intros Hd Ht. cbv zeta. split.
  - destruct (studentPoint_number _ _ _ _ _ Hd) as (data & p & Hget & _).
    rewrite incrementPoints_run. cbn [setDoc final].
    unfold onStudentsSnapshot. rewrite map_map. cbn [studentRow get].
    change (fun x : docSnap => fst x) with (@fst jsval jsobj).
    apply (students_of_set_ids _ _ _ data), Hget.
  - destruct (incrementPoints_points host classId studentId (deltas dd dt)
                st d t Hd Ht) as (_ & D & T).
    change (js_add host (JNumber (toInt host (JNumber d)))
              (or_default (get (deltas dd dt) "daily") (JNumber Num.one)))
      with (JNumber (Num.add (toInt host (JNumber d)) dd)) in D.
    change (js_add host (JNumber (toInt host (JNumber t)))
              (or_default (get (deltas dd dt) "total") (JNumber Num.one)))
      with (JNumber (Num.add (toInt host (JNumber t)) dt)) in T.
    destruct (studentPoint_number _ _ _ _ _ D) as (data & p & Hget & Hp & Hpd).
    unfold studentPoint in D, T. rewrite Hget in D, T.
    destruct (studentRow_numbers studentId data _ _ D T) as (Hi & Hpts & Hdl).
    exists (studentRow (studentId, data)). split; [|auto].
    unfold onStudentsSnapshot. apply in_map.
    apply In_students_of. now apply store_get_In.
Qed.

Lemma incrementPoints_in_rows_witness :
  let st := [studentDoc "C" "s0" Num.zero Num.zero;
             studentDoc "C" "s1" (Num.of_Z 3) seven_and_a_half] in
  let c := JString "C" in
  let s := JString "s1" in
  let host := SampleHost.host in
  let r := incrementPoints host c s (deltas (Num.of_Z 2) (Num.of_Z 1)) st in
  let rows := onStudentsSnapshot (students_of c (final r)) in
  map (fun row => get row "id") rows = map fst (students_of c st) /\
  exists row,
    In row rows /\
    get row "id" = s /\
    get row "points"
    = JNumber (Num.add (toInt host (JNumber seven_and_a_half)) (Num.of_Z 1)) /\
    get row "daily"
    = JNumber (Num.add (toInt host (JNumber (Num.of_Z 3))) (Num.of_Z 2)).
Proof.
  exact (incrementPoints_in_rows SampleHost.host (JString "C") (JString "s1")
           [studentDoc "C" "s0" Num.zero Num.zero;
            studentDoc "C" "s1" (Num.of_Z 3) seven_and_a_half]
           (Num.of_Z 3) seven_and_a_half (Num.of_Z 2) (Num.of_Z 1)
           eq_refl eq_refl).
Defined.
